(** * screenshotsaver.cpp: saving a capture to disk and to the clipboard

    A shallow embedding of [src/utils/screenshotsaver.cpp].  The file is
    glue over Qt, the flameshot configuration and a few POSIX calls, so the
    embedding is a state-and-outcome monad over a [World] that records, in
    order, every action the process performs on the outside world, together
    with the persisted configuration.  Whatever the outside world answers
    (return codes, descriptors, dialog results, encoder output) is supplied
    by an environment [Env] whose answers may depend on everything that
    happened before. *)

From Stdlib Require Import String Ascii List ZArith Bool Lia.
From Stdlib Require Import Init.Byte.
Import ListNotations.

Local Open Scope string_scope.
Local Open Scope Z_scope.

(** ** Constants of the system headers *)

(** [O_CLOEXEC] of <fcntl.h> (asm-generic value, octal 02000000). *)
Definition O_CLOEXEC : Z := 524288.
(** [STDIN_FILENO] of <unistd.h>. *)
Definition STDIN_FILENO : Z := 0.
(** [ERRBUF_LEN] of [logErr]. *)
Definition ERRBUF_LEN : Z := 64.
(** [QFile::NoError]. *)
Definition QFile_NoError : Z := 0.

(** ** Compile-time switches

    The preprocessor symbols the file tests with [#ifdef] / [defined()].
    [true] means the symbol is defined. *)
Record Build : Type := mkBuild {
  USE_WL_COPY : bool;
  USE_WAYLAND_CLIPBOARD : bool;
  Q_OS_MACOS : bool;
  Q_OS_LINUX : bool;
  Q_OS_UNIX : bool
}.

(** ** Persisted configuration (what [ConfigHandler] reads and writes) *)
Record Config : Type := mkConfig {
  savePath : string;
  saveAsFileExtension : string;
  savePathFixed : bool;
  copyPathAfterSave : bool;
  saveAfterCopy : bool;
  useJpgForClipboard : bool
}.

Definition with_savePath (p : string) (c : Config) : Config :=
  {| savePath := p;
     saveAsFileExtension := saveAsFileExtension c;
     savePathFixed := savePathFixed c;
     copyPathAfterSave := copyPathAfterSave c;
     saveAfterCopy := saveAfterCopy c;
     useJpgForClipboard := useJpgForClipboard c |}.

(** ** Loggers, dialogs, mime data *)

(** How the logger object was obtained: [AbstractLogger::info()],
    [AbstractLogger::error()], or the default constructor. *)
Inductive Channel : Type := ChInfo | ChError | ChDefault.

Inductive AcceptMode : Type := AcceptOpen | AcceptSave.

(** The [QFileDialog] as configured at the moment [exec()] is called.
    [dontUseNativeDialog] is the [QFileDialog::DontUseNativeDialog] option,
    which a freshly constructed dialog does not have. *)
Record FileDialog : Type := mkFileDialog {
  dlgTitle : string;
  dlgDirectory : string;
  dlgAcceptMode : AcceptMode;
  dontUseNativeDialog : bool;
  dlgMimeTypeFilters : list string;
  dlgSelectedMimeTypeFilter : option string;
  dlgDefaultSuffix : string
}.

(** Result of [dialog.exec()] with what [selectedFiles()] holds afterwards. *)
Record DialogResult : Type := mkDialogResult {
  accepted : bool;
  selectedFiles : list string
}.

(** ** How a call ends

    A call either returns ([Done]), never comes back because [execlp]
    replaced the process image ([Replaced]), never comes back because a
    signal raised inside a system call terminated the process ([Killed]:
    SIGPIPE from [write] on a pipe nobody reads, which this program neither
    ignores nor handles), or runs into behaviour C++ leaves undefined
    ([Undefined]). *)
Inductive Outcome (A : Type) : Type :=
| Done (a : A)
| Replaced
| Killed
| Undefined.
Arguments Done {A} a.
Arguments Replaced {A}.
Arguments Killed {A}.
Arguments Undefined {A}.

Section ScreenshotSaver.

(** The captured bitmap is opaque to this file. *)
Variable QPixmap : Type.

(** What was put into a [QMimeData] before it was handed to a clipboard. *)
Inductive MimeItem : Type :=
| MimeImageData (img : QPixmap)
| MimeData (mimeType : string) (data : list byte).

(** ** Actions on the outside world, in program order *)
Inductive Event : Type :=
| EvLog (ch : Channel) (notificationPath : option string) (streamed : list string)
| EvFileOpen (path : string)
| EvPixmapSave (capture : QPixmap) (path : string) (ok : bool)
| EvFileDialogExec (dlg : FileDialog) (res : DialogResult)
| EvMessageBox (title msg icon : string)
| EvDaemonCopyToClipboard (text notification : string)
| EvShowNormal (widget : nat)
| EvHide (widget : nat)
| EvPipe2 (flags : Z) (rc : Z) (fds : Z * Z)
| EvFork (pid : Z)
| EvClose (fd : Z)
| EvDup2 (oldfd newfd rc : Z)
| EvExeclp (file : string) (argv : list string)
| EvWrite (fd : Z) (buf : list byte) (count : Z)
| EvWaitpid (pid : Z) (options : Z)
(* KSystemClipboard::instance()->setMimeData(mimeData, QClipboard::Clipboard) *)
| EvKSystemClipboardSetMimeData (mime : list MimeItem)
(* QApplication::clipboard()->setMimeData(mimeData) *)
| EvQClipboardSetMimeData (mime : list MimeItem)
| EvQClipboardSetPixmap (capture : QPixmap).

Record World : Type := mkWorld {
  history : list Event;
  config : Config
}.

(** The world after the actions [es] were performed, in that order. *)
Definition emits (es : list Event) (w : World) : World :=
  {| history := history w ++ es; config := config w |}.

(** ** The environment: everything the code asks of Qt and the OS *)
Record Env : Type := mkEnv {
  (* QObject::tr *)
  tr : string -> string;
  (* imageType.toUpper().toUtf8() *)
  toUpperUtf8 : string -> string;
  (* FileNameHandler().properScreenshotPath(path, extension) *)
  properScreenshotPath : World -> string -> string -> string;
  (* capture.save(&file) *)
  pixmapSave : World -> QPixmap -> string -> bool;
  (* file.error(), file.errorString() *)
  fileError : World -> string -> Z;
  fileErrorString : World -> string -> string;
  (* QImageWriter::supportedMimeTypes() *)
  supportedMimeTypes : World -> list string;
  (* QMimeDatabase().mimeTypeForFile(name).name() *)
  mimeTypeForFile : World -> string -> string;
  (* dialog.exec() and dialog.selectedFiles() *)
  dialogExec : World -> FileDialog -> DialogResult;
  (* QImageWriter{&buffer, format}.write(capture.toImage()): the bytes left
     in the buffer *)
  imageWrite : World -> QPixmap -> string -> list byte;
  (* formattedPixmap.loadFromData(data, size, format) *)
  loadFromData : World -> list byte -> string -> option QPixmap;
  (* QDir(path).exists(), QFileInfo(path).isWritable() *)
  dirExists : World -> string -> bool;
  isWritable : World -> string -> bool;
  (* QStandardPaths::writableLocation(QStandardPaths::PicturesLocation) *)
  picturesLocation : World -> string;
  (* qApp->topLevelWidgets() with each widget's metaObject()->className() *)
  topLevelWidgets : World -> list (nat * string);
  (* GlobalValues::iconPath() *)
  iconPath : World -> string;
  (* DesktopInfo().waylandDetected() *)
  waylandDetected : World -> bool;
  (* pipe2(fds, flags): return code and the array afterwards *)
  sys_pipe2 : World -> Z * Z -> Z -> Z * (Z * Z);
  (* fork() *)
  sys_fork : World -> Z;
  (* dup2(oldfd, newfd) *)
  sys_dup2 : World -> Z -> Z -> Z;
  (* execlp(file, argv...): [None] when the process image was replaced,
     [Some rc] when the call came back *)
  sys_execlp : World -> string -> list string -> option Z;
  (* write(fd, buf, count): [Some n] when the call returns n (the count
     written, or -1), [None] when it raises a signal that terminates the
     process *)
  sys_write : World -> Z -> list byte -> Z -> option Z;
  (* strerror_r(errno, buf, len): the text left in buf *)
  sys_strerror_r : World -> Z -> string
}.

(** ** The monad *)
Definition M (A : Type) : Type := World -> Outcome A * World.

Definition ret {A} (a : A) : M A := fun w => (Done a, w).

Definition bind {A B} (m : M A) (k : A -> M B) : M B :=
  fun w =>
    match m w with
    | (Done a, w') => k a w'
    | (Replaced, w') => (Replaced, w')
    | (Killed, w') => (Killed, w')
    | (Undefined, w') => (Undefined, w')
    end.

Notation "x <- c1 ;; c2" := (bind c1 (fun x => c2))
  (at level 61, c1 at next level, right associativity).
Notation "' pat <- c1 ;; c2" := (bind c1 (fun x => match x with pat => c2 end))
  (at level 61, pat pattern, c1 at next level, right associativity).
Notation "c1 ;; c2" := (bind c1 (fun _ => c2))
  (at level 61, right associativity).

(** Read something from the environment without acting on it. *)
Definition ask {A} (f : World -> A) : M A := fun w => (Done (f w), w).

(** Perform an action. *)
Definition act (e : Event) : M unit := fun w => (Done tt, emits [e] w).

Definition when (b : bool) (m : M unit) : M unit := if b then m else ret tt.

Variable env : Env.

(** ** AbstractLogger *)
Definition log (ch : Channel) (path : option string) (streamed : list string)
  : M unit :=
  act (EvLog ch path streamed).

(** ** System calls *)
Definition pipe2 (fds : Z * Z) (flags : Z) : M (Z * (Z * Z)) :=
  r <- ask (fun w => sys_pipe2 env w fds flags) ;;
  act (EvPipe2 flags (fst r) (snd r)) ;;
  ret r.

Definition fork : M Z :=
  pid <- ask (sys_fork env) ;;
  act (EvFork pid) ;;
  ret pid.

Definition close (fd : Z) : M unit := act (EvClose fd).

Definition dup2 (oldfd newfd : Z) : M Z :=
  rc <- ask (fun w => sys_dup2 env w oldfd newfd) ;;
  act (EvDup2 oldfd newfd rc) ;;
  ret rc.

Definition execlp (file : string) (argv : list string) : M unit :=
  fun w =>
    match sys_execlp env w file argv with
    | None => (Replaced, emits [EvExeclp file argv] w)
    | Some _ => (Done tt, emits [EvExeclp file argv] w)
    end.

Definition write (fd : Z) (buf : list byte) (count : Z) : M unit :=
  fun w =>
    match sys_write env w fd buf count with
    | Some _ => (Done tt, emits [EvWrite fd buf count] w)
    | None => (Killed, emits [EvWrite fd buf count] w)
    end.

Definition waitpid (pid : Z) (options : Z) : M unit :=
  act (EvWaitpid pid options).

(** ** logErr *)
Definition logErr (name : string) : M unit :=
  errbuf <- ask (fun w => sys_strerror_r env w ERRBUF_LEN) ;;
  log ChError None ["wl_copy: " ++ name ++ ": "; errbuf].

(** ** saveToClipboardWlCopy *)
Definition saveToClipboardWlCopy (array : list byte) (imageType : string)
  : M unit :=
  if negb (imageType =? "png")%string then
    log ChError None ["WL_COPY option only supports png"]
  else
    r <- pipe2 (0, 0) O_CLOEXEC ;;
    let pipefds := snd r in
    when (fst r =? -1) (logErr "pipe2") ;;
    pid <- fork ;;
    when (pid =? -1) (logErr "fork") ;;
    when (pid =? 0)
      (close (snd pipefds) ;;
       rc <- dup2 (fst pipefds) STDIN_FILENO ;;
       when (rc =? -1) (logErr "dup2") ;;
       close (fst pipefds) ;;
       execlp "wl-copy" ["wl-copy"; "-t"; "image/png"]) ;;
    close (fst pipefds) ;;
    write (snd pipefds) array (Z.of_nat (length array)) ;;
    close (snd pipefds) ;;
    waitpid pid 0.

(** ** saveToFilesystem *)

(** [capture.save(&file)]: an action whose result the code inspects. *)
Definition save (capture : QPixmap) (path : string) : M bool :=
  ok <- ask (fun w => pixmapSave env w capture path) ;;
  act (EvPixmapSave capture path ok) ;;
  ret ok.

Definition isEmpty (s : string) : bool := (s =? "")%string.

Definition saveToFilesystem (capture : QPixmap) (path messagePrefix : string)
  : M bool :=
  extension <- ask (fun w => saveAsFileExtension (config w)) ;;
  completePath <- ask (fun w => properScreenshotPath env w path extension) ;;
  act (EvFileOpen completePath) ;;
  okay <- save capture completePath ;;
  let saveMessage := messagePrefix in
  let notificationPath := completePath in
  let saveMessage :=
    if negb (isEmpty saveMessage) then saveMessage ++ " " else saveMessage in
  (if okay then
     let saveMessage :=
       saveMessage ++ (tr env "Capture saved as " ++ completePath) in
     log ChInfo (Some notificationPath) [saveMessage]
   else
     let saveMessage :=
       saveMessage ++ (tr env "Error trying to save as " ++ completePath) in
     err <- ask (fun w => fileError env w completePath) ;;
     errorString <- ask (fun w => fileErrorString env w completePath) ;;
     let saveMessage :=
       if negb (err =? QFile_NoError)
       then saveMessage ++ (": " ++ errorString) else saveMessage in
     let notificationPath := "" in
     log ChError (Some notificationPath) [saveMessage]) ;;
  ret okay.

(** ** ShowSaveFileDialog *)

(** The condition of the [foreach] body. *)
Definition keepMimeType (mimeType : string) : bool :=
  negb (mimeType =? "image/heic")%string &&
  negb (mimeType =? "image/heic-sequence")%string &&
  negb (mimeType =? "image/heif-sequence")%string.

(** The [foreach] loop: walk the supported types, append the kept ones. *)
Definition buildMimeTypeList (supported : list string) : list string :=
  fold_left
    (fun mimeTypeList mimeType =>
       if keepMimeType mimeType then (mimeTypeList ++ [mimeType])%list
       else mimeTypeList)
    supported [].

(** [QList::constFirst()]: undefined on an empty list. *)
Definition constFirst (l : list string) : M string :=
  fun w =>
    match l with
    | [] => (Undefined, w)
    | x :: _ => (Done x, w)
    end.

Definition exec (dialog : FileDialog) : M DialogResult :=
  res <- ask (fun w => dialogExec env w dialog) ;;
  act (EvFileDialogExec dialog res) ;;
  ret res.

Definition ShowSaveFileDialog (title directory : string) : M string :=
  supported <- ask (supportedMimeTypes env) ;;
  let mimeTypeList := buildMimeTypeList supported in
  suffix <- ask (fun w => saveAsFileExtension (config w)) ;;
  let suffix := if isEmpty suffix then "png" else suffix in
  defaultMimeType <- ask (fun w => mimeTypeForFile env w ("image." ++ suffix)) ;;
  let dialog :=
    {| dlgTitle := title;
       dlgDirectory := directory;
       dlgAcceptMode := AcceptSave;
       dontUseNativeDialog := false;
       dlgMimeTypeFilters := mimeTypeList;
       dlgSelectedMimeTypeFilter := Some defaultMimeType;
       dlgDefaultSuffix := suffix |} in
  res <- exec dialog ;;
  if accepted res then constFirst (selectedFiles res) else ret "".

(** ** saveToClipboardMime *)
Definition saveToClipboardMime (build : Build) (capture : QPixmap)
  (imageType : string) : M unit :=
  let format := toUpperUtf8 env imageType in
  array <- ask (fun w => imageWrite env w capture format) ;;
  loaded <- ask (fun w => loadFromData env w array format) ;;
  match loaded with
  | Some formattedPixmap =>
      if USE_WL_COPY build then
        saveToClipboardWlCopy array imageType
      else if USE_WAYLAND_CLIPBOARD build then
        log ChInfo None ["wl_wayland_copy"] ;;
        act (EvKSystemClipboardSetMimeData
               [MimeImageData formattedPixmap;
                MimeData "x-kde-force-image-copy" []])
      else
        act (EvQClipboardSetMimeData [MimeData ("image/" ++ imageType) array])
  | None =>
      log ChError None [tr env "Error while saving to clipboard"]
  end.

(** ** saveToClipboard *)
Definition saveToClipboard (build : Build) (capture : QPixmap) : M unit :=
  afterCopy <- ask (fun w => saveAfterCopy (config w)) ;;
  path <- ask (fun w => savePath (config w)) ;;
  (if afterCopy && negb (isEmpty path) then
     _ <- saveToFilesystem capture path (tr env "Capture saved to clipboard.") ;;
     ret tt
   else
     log ChDefault None [tr env "Capture saved to clipboard."]) ;;
  jpg <- ask (fun w => useJpgForClipboard (config w)) ;;
  if jpg then
    saveToClipboardMime build capture "jpeg"
  else if Q_OS_LINUX build || Q_OS_UNIX build then
    wayland <- ask (waylandDetected env) ;;
    if wayland then saveToClipboardMime build capture "png"
    else act (EvQClipboardSetPixmap capture)
  else
    act (EvQClipboardSetPixmap capture).

(** ** saveToFilesystemGUI *)

(** [QString::lastIndexOf] for a one-character needle, searching the whole
    string: position of the last occurrence counted from [pos], or -1. *)
Fixpoint lastIndexOf_from (c : ascii) (s : string) (pos : Z) : Z :=
  match s with
  | EmptyString => -1
  | String a rest =>
      let later := lastIndexOf_from c rest (pos + 1) in
      if later =? -1 then (if Ascii.eqb a c then pos else -1) else later
  end.

Definition lastIndexOf (s : string) (c : ascii) : Z := lastIndexOf_from c s 0.

(** [QString::left(n)]: the whole string when [n] is negative or not less
    than the size. *)
Definition left (s : string) (n : Z) : string :=
  if (n <? 0) || (Z.of_nat (String.length s) <=? n) then s
  else substring 0 (Z.to_nat n) s.

Definition pathNoFile (path : string) : string :=
  left path (lastIndexOf path "/"%char).

Definition setSavePath (p : string) : M unit :=
  fun w => (Done tt,
            {| history := history w; config := with_savePath p (config w) |}).

(** The macOS loop over the top-level widgets: the first one whose class
    is [CaptureWidget] is shown normal and hidden, then the loop breaks. *)
Fixpoint hideCaptureWidget (widgets : list (nat * string)) : M unit :=
  match widgets with
  | [] => ret tt
  | (widget, className) :: rest =>
      if (className =? "CaptureWidget")%string then
        act (EvShowNormal widget) ;; act (EvHide widget)
      else hideCaptureWidget rest
  end.

Definition saveToFilesystemGUI (build : Build) (capture : QPixmap) : M bool :=
  let okay := false in
  defaultSavePath <- ask (fun w => savePath (config w)) ;;
  present <- ask (fun w => dirExists env w defaultSavePath) ;;
  writable <- ask (fun w => isWritable env w defaultSavePath) ;;
  pictures <- ask (picturesLocation env) ;;
  let defaultSavePath :=
    if isEmpty defaultSavePath || negb present || negb writable
    then pictures else defaultSavePath in
  extension <- ask (fun w => saveAsFileExtension (config w)) ;;
  path <- ask (fun w => properScreenshotPath env w defaultSavePath extension) ;;
  when (Q_OS_MACOS build)
    (widgets <- ask (topLevelWidgets env) ;; hideCaptureWidget widgets) ;;
  fixed <- ask (fun w => savePathFixed (config w)) ;;
  path <- (if negb fixed
           then ShowSaveFileDialog (tr env "Save screenshot") path
           else ret path) ;;
  if (path =? "")%string then ret okay
  else
    act (EvFileOpen path) ;;
    okay <- save capture path ;;
    (if okay then
       setSavePath (pathNoFile path) ;;
       log ChDefault (Some path) [tr env "Capture saved as " ++ path] ;;
       copyPath <- ask (fun w => copyPathAfterSave (config w)) ;;
       when copyPath
         (act (EvDaemonCopyToClipboard path
                 (tr env "Path copied to clipboard as " ++ path)))
     else
       let msg := tr env "Error trying to save as " ++ path in
       err <- ask (fun w => fileError env w path) ;;
       errorString <- ask (fun w => fileErrorString env w path) ;;
       let msg :=
         if negb (err =? QFile_NoError) then msg ++ (": " ++ errorString)
         else msg in
       icon <- ask (iconPath env) ;;
       act (EvMessageBox (tr env "Save Error") msg icon)) ;;
    ret okay.

End ScreenshotSaver.

Arguments EvLog {QPixmap}.
Arguments EvFileOpen {QPixmap}.
Arguments EvPixmapSave {QPixmap}.
Arguments EvFileDialogExec {QPixmap}.
Arguments EvMessageBox {QPixmap}.
Arguments EvDaemonCopyToClipboard {QPixmap}.
Arguments EvShowNormal {QPixmap}.
Arguments EvHide {QPixmap}.
Arguments EvPipe2 {QPixmap}.
Arguments EvFork {QPixmap}.
Arguments EvClose {QPixmap}.
Arguments EvDup2 {QPixmap}.
Arguments EvExeclp {QPixmap}.
Arguments EvWrite {QPixmap}.
Arguments EvWaitpid {QPixmap}.
Arguments EvKSystemClipboardSetMimeData {QPixmap}.
Arguments EvQClipboardSetMimeData {QPixmap}.
Arguments EvQClipboardSetPixmap {QPixmap}.
Arguments MimeImageData {QPixmap}.
Arguments MimeData {QPixmap}.
Arguments mkWorld {QPixmap}.
Arguments history {QPixmap}.
Arguments config {QPixmap}.
Arguments emits {QPixmap}.
Arguments tr {QPixmap}.
Arguments toUpperUtf8 {QPixmap}.
Arguments properScreenshotPath {QPixmap}.
Arguments pixmapSave {QPixmap}.
Arguments fileError {QPixmap}.
Arguments fileErrorString {QPixmap}.
Arguments supportedMimeTypes {QPixmap}.
Arguments mimeTypeForFile {QPixmap}.
Arguments dialogExec {QPixmap}.
Arguments imageWrite {QPixmap}.
Arguments loadFromData {QPixmap}.
Arguments dirExists {QPixmap}.
Arguments isWritable {QPixmap}.
Arguments picturesLocation {QPixmap}.
Arguments topLevelWidgets {QPixmap}.
Arguments iconPath {QPixmap}.
Arguments waylandDetected {QPixmap}.
Arguments sys_pipe2 {QPixmap}.
Arguments sys_fork {QPixmap}.
Arguments sys_dup2 {QPixmap}.
Arguments sys_execlp {QPixmap}.
Arguments sys_write {QPixmap}.
Arguments sys_strerror_r {QPixmap}.
Arguments ret {QPixmap A}.
Arguments bind {QPixmap A B}.
Arguments ask {QPixmap A}.
Arguments act {QPixmap}.
Arguments when {QPixmap}.
Arguments log {QPixmap}.
Arguments pipe2 {QPixmap}.
Arguments fork {QPixmap}.
Arguments close {QPixmap}.
Arguments dup2 {QPixmap}.
Arguments execlp {QPixmap}.
Arguments write {QPixmap}.
Arguments waitpid {QPixmap}.
Arguments logErr {QPixmap}.
Arguments saveToClipboardWlCopy {QPixmap}.
Arguments save {QPixmap}.
Arguments saveToFilesystem {QPixmap}.
Arguments constFirst {QPixmap}.
Arguments exec {QPixmap}.
Arguments ShowSaveFileDialog {QPixmap}.
Arguments saveToClipboardMime {QPixmap}.
Arguments saveToClipboard {QPixmap}.
Arguments setSavePath {QPixmap}.
Arguments hideCaptureWidget {QPixmap}.
Arguments saveToFilesystemGUI {QPixmap}.

Arguments emits : simpl never.

(** ** A scripted environment

    An environment that answers every question from a fixed script, with
    captures named by numbers.  It is used to run the functions above on
    concrete inputs. *)
Record Script : Type := mkScript {
  sc_pipe2 : Z * (Z * Z);
  sc_fork : Z;
  sc_dup2 : Z;
  sc_execlp : option Z;
  sc_sigpipe : bool;
  sc_save : bool;
  sc_fileError : Z;
  sc_dialog : DialogResult;
  sc_load : bool;
  sc_supported : list string
}.

Definition scripted (s : Script) : Env nat :=
  {| tr := fun text => text;
     toUpperUtf8 := fun t =>
       if (t =? "png")%string then "PNG"
       else if (t =? "jpeg")%string then "JPEG" else t;
     properScreenshotPath := fun _ path extension =>
       path ++ "/shot." ++ (if (extension =? "")%string then "png" else extension);
     pixmapSave := fun _ _ _ => sc_save s;
     fileError := fun _ _ => sc_fileError s;
     fileErrorString := fun _ _ => "Permission denied";
     supportedMimeTypes := fun _ => sc_supported s;
     mimeTypeForFile := fun _ name =>
       if (name =? "image.png")%string then "image/png"
       else "application/octet-stream";
     dialogExec := fun _ _ => sc_dialog s;
     imageWrite := fun _ capture _ =>
       ([x89; x50; x4e; x47] ++ repeat x2a capture)%list;
     loadFromData := fun _ data _ =>
       if sc_load s then Some (List.length data) else None;
     dirExists := fun _ _ => true;
     isWritable := fun _ _ => true;
     picturesLocation := fun _ => "/home/user/Pictures";
     topLevelWidgets := fun _ => [(1%nat, "QMainWindow"); (2%nat, "CaptureWidget")];
     iconPath := fun _ => ":/img/app/flameshot.svg";
     waylandDetected := fun _ => true;
     sys_pipe2 := fun _ _ _ => sc_pipe2 s;
     sys_fork := fun _ => sc_fork s;
     sys_dup2 := fun _ _ _ => sc_dup2 s;
     sys_execlp := fun _ _ _ => sc_execlp s;
     sys_write := fun _ _ _ count => if sc_sigpipe s then None else Some count;
     sys_strerror_r := fun _ _ => "Too many open files" |}.

(** Everything succeeds; the process is the parent of helper 4242. *)
Definition parentScript : Script :=
  {| sc_pipe2 := (0, (7, 8));
     sc_fork := 4242;
     sc_dup2 := 0;
     sc_execlp := None;
     sc_sigpipe := false;
     sc_save := true;
     sc_fileError := 0;
     sc_dialog := {| accepted := true;
                     selectedFiles := ["/home/user/Pictures/a.png"] |};
     sc_load := true;
     sc_supported :=
       ["image/bmp"; "image/heic"; "image/heif"; "image/heic-sequence";
        "image/jpeg"; "image/heif-sequence"; "image/png"] |}.

Definition with_fork (pid : Z) (s : Script) : Script :=
  {| sc_pipe2 := sc_pipe2 s; sc_fork := pid; sc_dup2 := sc_dup2 s;
     sc_execlp := sc_execlp s; sc_sigpipe := sc_sigpipe s;
     sc_save := sc_save s;
     sc_fileError := sc_fileError s; sc_dialog := sc_dialog s;
     sc_load := sc_load s; sc_supported := sc_supported s |}.

Definition with_save (ok : bool) (err : Z) (s : Script) : Script :=
  {| sc_pipe2 := sc_pipe2 s; sc_fork := sc_fork s; sc_dup2 := sc_dup2 s;
     sc_execlp := sc_execlp s; sc_sigpipe := sc_sigpipe s;
     sc_save := ok;
     sc_fileError := err; sc_dialog := sc_dialog s;
     sc_load := sc_load s; sc_supported := sc_supported s |}.

Definition with_dialog (d : DialogResult) (s : Script) : Script :=
  {| sc_pipe2 := sc_pipe2 s; sc_fork := sc_fork s; sc_dup2 := sc_dup2 s;
     sc_execlp := sc_execlp s; sc_sigpipe := sc_sigpipe s;
     sc_save := sc_save s;
     sc_fileError := sc_fileError s; sc_dialog := d;
     sc_load := sc_load s; sc_supported := sc_supported s |}.

Definition with_load (ok : bool) (s : Script) : Script :=
  {| sc_pipe2 := sc_pipe2 s; sc_fork := sc_fork s; sc_dup2 := sc_dup2 s;
     sc_execlp := sc_execlp s; sc_sigpipe := sc_sigpipe s;
     sc_save := sc_save s;
     sc_fileError := sc_fileError s; sc_dialog := sc_dialog s;
     sc_load := ok; sc_supported := sc_supported s |}.

Definition with_pipe2 (r : Z * (Z * Z)) (s : Script) : Script :=
  {| sc_pipe2 := r; sc_fork := sc_fork s; sc_dup2 := sc_dup2 s;
     sc_execlp := sc_execlp s; sc_sigpipe := sc_sigpipe s;
     sc_save := sc_save s;
     sc_fileError := sc_fileError s; sc_dialog := sc_dialog s;
     sc_load := sc_load s; sc_supported := sc_supported s |}.

Definition with_execlp (r : option Z) (s : Script) : Script :=
  {| sc_pipe2 := sc_pipe2 s; sc_fork := sc_fork s; sc_dup2 := sc_dup2 s;
     sc_execlp := r; sc_sigpipe := sc_sigpipe s;
     sc_save := sc_save s;
     sc_fileError := sc_fileError s; sc_dialog := sc_dialog s;
     sc_load := sc_load s; sc_supported := sc_supported s |}.

(** The environment in which [write] raises SIGPIPE. *)
Definition with_sigpipe (s : Script) : Script :=
  {| sc_pipe2 := sc_pipe2 s; sc_fork := sc_fork s; sc_dup2 := sc_dup2 s;
     sc_execlp := sc_execlp s; sc_sigpipe := true;
     sc_save := sc_save s;
     sc_fileError := sc_fileError s; sc_dialog := sc_dialog s;
     sc_load := sc_load s; sc_supported := sc_supported s |}.

(** The user picks a file directly under the root and the save succeeds. *)
Definition rootFileScript : Script :=
  with_dialog {| accepted := true; selectedFiles := ["/shot.png"] |}
    parentScript.

Definition defaultConfig : Config :=
  {| savePath := "/home/user/shots";
     saveAsFileExtension := "";
     savePathFixed := false;
     copyPathAfterSave := false;
     saveAfterCopy := false;
     useJpgForClipboard := false |}.

Definition freshWorld : World nat :=
  {| history := []; config := defaultConfig |}.

Definition wlCopyBuild : Build :=
  {| USE_WL_COPY := true; USE_WAYLAND_CLIPBOARD := false;
     Q_OS_MACOS := false; Q_OS_LINUX := true; Q_OS_UNIX := true |}.

(** Both clipboard switches defined at once. *)
Definition bothSwitchesBuild : Build :=
  {| USE_WL_COPY := true; USE_WAYLAND_CLIPBOARD := true;
     Q_OS_MACOS := false; Q_OS_LINUX := true; Q_OS_UNIX := true |}.

(** No clipboard switch and none of the Unix platform symbols. *)
Definition windowsBuild : Build :=
  {| USE_WL_COPY := false; USE_WAYLAND_CLIPBOARD := false;
     Q_OS_MACOS := false; Q_OS_LINUX := false; Q_OS_UNIX := false |}.

(** A world whose configuration asks for jpeg on the clipboard. *)
Definition jpegWorld : World nat :=
  {| history := [];
     config := {| savePath := "/home/user/shots";
                  saveAsFileExtension := "";
                  savePathFixed := false;
                  copyPathAfterSave := false;
                  saveAfterCopy := true;
                  useJpgForClipboard := true |} |}.

(** A world whose configuration fixes the save path. *)
Definition fixedWorld : World nat :=
  {| history := [];
     config := {| savePath := "";
                  saveAsFileExtension := "jpg";
                  savePathFixed := true;
                  copyPathAfterSave := true;
                  saveAfterCopy := false;
                  useJpgForClipboard := false |} |}.

(** ** Vocabulary of the properties *)

(** The line [logErr name] writes when the error text is [errbuf]. *)
Definition wlCopyLogLine {QPixmap} (name errbuf : string) : Event QPixmap :=
  EvLog ChError None ["wl_copy: " ++ name ++ ": "; errbuf].

Definition logLineIf {QPixmap} (failed : bool) (name errbuf : string)
  : list (Event QPixmap) :=
  if failed then [wlCopyLogLine name errbuf] else [].

(** What the process does after the fork when it stays in the function's
    tail: close the read end, write the bytes, close the write end, wait. *)
Definition parentSteps {QPixmap} (array : list byte) (fds : Z * Z) (pid : Z)
  : list (Event QPixmap) :=
  [EvClose (fst fds);
   EvWrite (snd fds) array (Z.of_nat (List.length array));
   EvClose (snd fds);
   EvWaitpid pid 0].

(** The tail cut short: the process is terminated inside the [write]. *)
Definition writeSteps {QPixmap} (array : list byte) (fds : Z * Z)
  : list (Event QPixmap) :=
  [EvClose (fst fds);
   EvWrite (snd fds) array (Z.of_nat (List.length array))].

(** What the forked child does, where [rcd] is what [dup2] returned. *)
Definition childSteps {QPixmap} (fds : Z * Z) (rcd : Z) (errbuf : string)
  : list (Event QPixmap) :=
  ([EvClose (snd fds); EvDup2 (fst fds) STDIN_FILENO rcd]
   ++ logLineIf (rcd =? -1) "dup2" errbuf
   ++ [EvClose (fst fds); EvExeclp "wl-copy" ["wl-copy"; "-t"; "image/png"]])%list.

(** The aliases of image/heif that the save dialog must not offer. *)
Definition heifAliases : list string :=
  ["image/heic"; "image/heic-sequence"; "image/heif-sequence"].

Definition notHeifAlias (mimeType : string) : bool :=
  negb (existsb (String.eqb mimeType) heifAliases).

(** Events that create or write a file. *)
Definition isFileWrite {QPixmap} (e : Event QPixmap) : bool :=
  match e with
  | EvFileOpen _ | EvPixmapSave _ _ _ => true
  | _ => false
  end.

(** The three clipboard backends of [saveToClipboardMime]. *)
Inductive Backend : Type := WlCopyHelper | KSystemClipboard | QtClipboard.

(** The backend the compile-time switches select: the first of
    [USE_WL_COPY], [USE_WAYLAND_CLIPBOARD] that is defined, the standard
    Qt clipboard when neither is. *)
Definition selectedBackend (build : Build) : Backend :=
  if USE_WL_COPY build then WlCopyHelper
  else if USE_WAYLAND_CLIPBOARD build then KSystemClipboard
  else QtClipboard.

(** Which backend an action belongs to; log lines and file or dialog
    actions belong to none. *)
Definition backendOf {QPixmap} (e : Event QPixmap) : option Backend :=
  match e with
  | EvPipe2 _ _ _ | EvFork _ | EvClose _ | EvDup2 _ _ _ | EvExeclp _ _
  | EvWrite _ _ _ | EvWaitpid _ _ => Some WlCopyHelper
  | EvKSystemClipboardSetMimeData _ => Some KSystemClipboard
  | EvQClipboardSetMimeData _ | EvQClipboardSetPixmap _ => Some QtClipboard
  | _ => None
  end.

(** Log lines. *)
Definition isLog {QPixmap} (e : Event QPixmap) : bool :=
  match e with
  | EvLog _ _ _ => true
  | _ => false
  end.

(** Windows put in front of the user: the save dialog and the message box. *)
Definition isDialog {QPixmap} (e : Event QPixmap) : bool :=
  match e with
  | EvFileDialogExec _ _ | EvMessageBox _ _ _ => true
  | _ => false
  end.

(** [write] calls. *)
Definition isWrite {QPixmap} (e : Event QPixmap) : bool :=
  match e with
  | EvWrite _ _ _ => true
  | _ => false
  end.

(** What the macOS loop of [saveToFilesystemGUI] does to the top-level
    widgets: the first one of class CaptureWidget is shown normal and
    hidden; without one nothing happens. *)
Definition captureWidgetActions {QPixmap} (widgets : list (nat * string))
  : list (Event QPixmap) :=
  match find (fun p => (snd p =? "CaptureWidget")%string) widgets with
  | Some (widget, _) => [EvShowNormal widget; EvHide widget]
  | None => []
  end.

(** The directory [saveToFilesystemGUI] starts from: the configured save
    path, or the pictures location when that path is empty, does not exist
    or is not writable. *)
Definition guiDefaultSavePath {QPixmap} (env : Env QPixmap) (w : World QPixmap)
  : string :=
  if isEmpty (savePath (config w))
     || negb (dirExists env w (savePath (config w)))
     || negb (isWritable env w (savePath (config w)))
  then picturesLocation env w
  else savePath (config w).

(** * Properties *)

Section Properties.

Variable QPixmap : Type.
Variable env : Env QPixmap.

Lemma emits_emits (a b : list (Event QPixmap)) (w : World QPixmap) :
  emits b (emits a w) = emits (a ++ b)%list w.
Proof. unfold emits; simpl. now rewrite app_assoc. Qed.

Lemma emits_nil (w : World QPixmap) : emits [] w = w.
Proof. destruct w; unfold emits; simpl. now rewrite app_nil_r. Qed.

Lemma emits_inj (a b : list (Event QPixmap)) (w : World QPixmap) :
  emits a w = emits b w -> a = b.
Proof.
  unfold emits; intros H; injection H as H.
  now apply app_inv_head in H.
Qed.

Lemma config_emits (a : list (Event QPixmap)) (w : World QPixmap) :
  config (emits a w) = config w.
Proof. reflexivity. Qed.

(** Unfold the monad and bring every intermediate world to the form
    [emits [e1; ...; en] w]. *)
Ltac step :=
  unfold pipe2, fork, dup2, close, write, waitpid, execlp, logErr, log,
    save, exec, setSavePath, when, bind, ask, act, ret;
  cbn beta iota;
  repeat (rewrite emits_emits; cbn [app]).

(** C8: any image type other than "png" only logs the error. *)
Theorem saveToClipboardWlCopy_only_png :
  forall (array : list byte) (imageType : string) (w : World QPixmap),
    imageType <> "png" ->
    saveToClipboardWlCopy env array imageType w =
    (Done tt,
     emits [EvLog ChError None ["WL_COPY option only supports png"]] w).
Proof.
  intros array imageType w Hty.
  unfold saveToClipboardWlCopy.
  destruct (String.eqb_spec imageType "png") as [E | _]; [contradiction |].
  reflexivity.
Qed.

(** C1: for "png", when [pipe2] succeeds with descriptors [(rd, wr)], the
    process in which [fork] returns a positive pid (the parent) closes the
    read end, writes the whole array to the write end and, that write
    having returned, closes the write end and waits for that pid (a write
    that raises a fatal signal is the parent's last action); the process
    in which [fork] returns 0 (the child) closes the write end, makes the
    read end its stdin, closes the read end and execs
    "wl-copy -t image/png", never coming back. *)
Theorem saveToClipboardWlCopy_png_pipes_to_helper :
  forall (array : list byte) (w : World QPixmap) (rc rd wr pid : Z),
    sys_pipe2 env w (0, 0) O_CLOEXEC = (rc, (rd, wr)) ->
    rc <> -1 ->
    sys_fork env (emits [EvPipe2 O_CLOEXEC rc (rd, wr)] w) = pid ->
    (0 < pid ->
     saveToClipboardWlCopy env array "png" w =
     match sys_write env
             (emits [EvPipe2 O_CLOEXEC rc (rd, wr); EvFork pid; EvClose rd] w)
             wr array (Z.of_nat (List.length array))
     with
     | Some _ =>
         (Done tt,
          emits [EvPipe2 O_CLOEXEC rc (rd, wr);
                 EvFork pid;
                 EvClose rd;
                 EvWrite wr array (Z.of_nat (List.length array));
                 EvClose wr;
                 EvWaitpid pid 0] w)
     | None =>
         (Killed,
          emits [EvPipe2 O_CLOEXEC rc (rd, wr);
                 EvFork pid;
                 EvClose rd;
                 EvWrite wr array (Z.of_nat (List.length array))] w)
     end)
    /\
    (pid = 0 ->
     forall rcd : Z,
       sys_dup2 env
         (emits [EvPipe2 O_CLOEXEC rc (rd, wr); EvFork 0; EvClose wr] w)
         rd STDIN_FILENO = rcd ->
       rcd <> -1 ->
       sys_execlp env
         (emits [EvPipe2 O_CLOEXEC rc (rd, wr); EvFork 0; EvClose wr;
                 EvDup2 rd STDIN_FILENO rcd; EvClose rd] w)
         "wl-copy" ["wl-copy"; "-t"; "image/png"] = None ->
       saveToClipboardWlCopy env array "png" w =
       (Replaced,
        emits [EvPipe2 O_CLOEXEC rc (rd, wr);
               EvFork 0;
               EvClose wr;
               EvDup2 rd STDIN_FILENO rcd;
               EvClose rd;
               EvExeclp "wl-copy" ["wl-copy"; "-t"; "image/png"]] w)).
Proof.
  intros array w rc rd wr pid Hpipe Hrc Hfork.
  apply Z.eqb_neq in Hrc.
  split.
  - intros Hpid.
    unfold saveToClipboardWlCopy; cbn [String.eqb Ascii.eqb Bool.eqb negb].
    step. rewrite Hpipe; cbn [fst snd]. rewrite Hrc. step.
    rewrite Hfork.
    replace (pid =? -1) with false by (symmetry; apply Z.eqb_neq; lia).
    replace (pid =? 0) with false by (symmetry; apply Z.eqb_neq; lia).
    step.
    destruct (sys_write env _ wr array _); step; reflexivity.
  - intros Hpid rcd Hdup Hrcd Hexec. rewrite Hpid in Hfork.
    apply Z.eqb_neq in Hrcd.
    unfold saveToClipboardWlCopy; cbn [String.eqb Ascii.eqb Bool.eqb negb].
    step. rewrite Hpipe; cbn [fst snd]. rewrite Hrc. step.
    rewrite Hfork. cbn [Z.eqb]. step.
    rewrite Hdup, Hrcd. step.
    rewrite Hexec. reflexivity.
Qed.

(** C2: in every run for "png" the calls are issued in the same fixed
    order; a call that returned -1 ([pipe2], [fork], [dup2]) is followed by
    one [logErr] line and by nothing else: each call is made once, there is
    no early return, and the following calls are still issued.  The run
    stops early only inside a [write] that raises a fatal signal; when no
    write does, the tail runs to [waitpid].  [rc], [fds] are what [pipe2]
    returned, [pid] what [fork] returned, [rcd] what [dup2] returned. *)
Theorem saveToClipboardWlCopy_failures_only_log :
  forall (array : list byte) (w : World QPixmap),
  exists (rc : Z) (fds : Z * Z) (pid : Z) (m1 m2 : string),
    sys_pipe2 env w (0, 0) O_CLOEXEC = (rc, fds) /\
    ((forall w1 fd buf count, sys_write env w1 fd buf count <> None) ->
     fst (saveToClipboardWlCopy env array "png" w) <> Killed) /\
    let start : list (Event QPixmap) :=
      ([EvPipe2 O_CLOEXEC rc fds] ++ logLineIf (rc =? -1) "pipe2" m1
       ++ [EvFork pid] ++ logLineIf (pid =? -1) "fork" m2)%list in
    (pid <> 0 /\
     (saveToClipboardWlCopy env array "png" w =
      (Done tt, emits (start ++ parentSteps array fds pid)%list w)
      \/
      saveToClipboardWlCopy env array "png" w =
      (Killed, emits (start ++ writeSteps array fds)%list w)))
    \/
    (pid = 0 /\
     exists (rcd : Z) (m3 : string),
       saveToClipboardWlCopy env array "png" w =
       (Replaced, emits (start ++ childSteps fds rcd m3)%list w)
       \/
       saveToClipboardWlCopy env array "png" w =
       (Done tt,
        emits (start ++ childSteps fds rcd m3
                     ++ parentSteps array fds pid)%list w)
       \/
       saveToClipboardWlCopy env array "png" w =
       (Killed,
        emits (start ++ childSteps fds rcd m3
                     ++ writeSteps array fds)%list w)).
Proof.
  intros array w.
  destruct (saveToClipboardWlCopy env array "png" w) as [out w'] eqn:Hrun.
  revert Hrun.
  unfold saveToClipboardWlCopy; cbn [String.eqb Ascii.eqb Bool.eqb negb].
  step.
  destruct (sys_pipe2 env w (0, 0) O_CLOEXEC) as [rc fds] eqn:Hpipe.
  cbn [fst snd].
  unfold logLineIf, wlCopyLogLine, childSteps, parentSteps, writeSteps,
    logLineIf.
  destruct (rc =? -1) eqn:Erc; step.
  all: match goal with
       | |- context [sys_fork env ?w0] =>
           remember (sys_fork env w0) as pid eqn:Hpid
       end.
  all: destruct (pid =? -1) eqn:Epid; step.
  all: destruct (pid =? 0) eqn:Ep0; step.
  all: try (apply Z.eqb_eq in Epid; apply Z.eqb_eq in Ep0; lia).
  all: repeat match goal with
       | |- context [sys_dup2 env ?w0 ?a ?b] =>
           remember (sys_dup2 env w0 a b) as rcd eqn:Hrcd;
           destruct (rcd =? -1) eqn:Ercd; step
       | |- context [sys_execlp env ?w0 ?a ?b] =>
           destruct (sys_execlp env w0 a b) eqn:Ex; step
       | |- context [sys_write env ?w0 ?a ?b ?c] =>
           destruct (sys_write env w0 a b c) eqn:Ewr; step
       end.
  all: intros Hrun; injection Hrun as <- <-.
  all: exists rc, fds, pid.
  all: rewrite ?Erc, ?Epid, ?Ep0.
  all: eexists _, _; (split; [reflexivity |]).
  all: cbn [fst]; split;
    [ first [ intros _; discriminate
            | intros Hnever;
              match goal with
              | H : sys_write env ?w0 ?a ?b ?c = None |- _ =>
                  now elim (Hnever w0 a b c)
              end ] |].
  all: first
    [ left; split; [apply Z.eqb_neq; assumption |];
      first [left; reflexivity | right; reflexivity]
    | right; split; [apply Z.eqb_eq; assumption |];
      eexists rcd, _; rewrite ?Ercd;
      first [ left; reflexivity
            | right; left; reflexivity
            | right; right; reflexivity ] ].
  Unshelve.
  all: exact "".
Qed.

(** C3: [saveToFilesystem] opens the file, saves once, writes one log line
    and returns what the save returned.  On success the line goes to the
    info logger; on failure it goes to the error logger, with the file's
    error string appended when the file reports an error. *)
Theorem saveToFilesystem_log_and_return :
  forall (capture : QPixmap) (path messagePrefix : string) (w : World QPixmap),
    let completePath :=
      properScreenshotPath env w path (saveAsFileExtension (config w)) in
    let okay :=
      pixmapSave env (emits [EvFileOpen completePath] w) capture completePath in
    let w2 :=
      emits [EvFileOpen completePath; EvPixmapSave capture completePath okay] w in
    let lead :=
      if (messagePrefix =? "")%string then messagePrefix
      else messagePrefix ++ " " in
    exists line : Event QPixmap,
      saveToFilesystem env capture path messagePrefix w =
      (Done okay,
       emits [EvFileOpen completePath;
              EvPixmapSave capture completePath okay;
              line] w)
      /\ (okay = true ->
          line =
          EvLog ChInfo (Some completePath)
            [lead ++ (tr env "Capture saved as " ++ completePath)])
      /\ (okay = false ->
          line =
          EvLog ChError (Some "")
            [if fileError env w2 completePath =? QFile_NoError
             then lead ++ (tr env "Error trying to save as " ++ completePath)
             else (lead ++ (tr env "Error trying to save as " ++ completePath))
                  ++ (": " ++ fileErrorString env w2 completePath)]).
Proof.
  intros capture path messagePrefix w completePath okay w2 lead.
  unfold saveToFilesystem, isEmpty. step. fold completePath. fold okay.
  subst lead.
  destruct okay eqn:Eok; step.
  - eexists. split; [reflexivity |]. split; [| discriminate].
    intros _. destruct (messagePrefix =? "")%string; reflexivity.
  - fold w2. eexists. split; [reflexivity |]. split; [discriminate |].
    intros _.
    destruct (messagePrefix =? "")%string;
      destruct (fileError env w2 completePath =? QFile_NoError); reflexivity.
Qed.

(** C7: [saveToFilesystem] opens and saves exactly one file, the complete
    path [properScreenshotPath] makes from the given path and the configured
    extension, and returns the result of that one save. *)
Theorem saveToFilesystem_writes_complete_path :
  forall (capture : QPixmap) (path messagePrefix : string)
         (w w' : World QPixmap) (out : Outcome bool),
    saveToFilesystem env capture path messagePrefix w = (out, w') ->
    let completePath :=
      properScreenshotPath env w path (saveAsFileExtension (config w)) in
    exists (okay : bool) (t : list (Event QPixmap)),
      out = Done okay /\ w' = emits t w /\
      In (EvFileOpen completePath) t /\
      In (EvPixmapSave capture completePath okay) t /\
      (forall p, In (EvFileOpen p) t -> p = completePath) /\
      (forall c p o, In (EvPixmapSave c p o) t ->
                     c = capture /\ p = completePath /\ o = okay).
Proof.
  intros capture path messagePrefix w w' out Hrun completePath.
  revert Hrun. unfold saveToFilesystem. step. fold completePath.
  match goal with
  | |- context [pixmapSave env ?w0 ?c ?p] =>
      destruct (pixmapSave env w0 c p) eqn:Eok
  end; step; intros Hrun; injection Hrun as <- <-;
    eexists; eexists; (split; [reflexivity |]); (split; [reflexivity |]);
    cbn [In]; repeat split; auto;
    intros; repeat match goal with
                   | H : _ \/ _ |- _ => destruct H
                   | H : False |- _ => destruct H
                   end; try discriminate; try congruence;
    match goal with
    | H : EvPixmapSave _ _ _ = EvPixmapSave _ _ _ |- _ =>
        injection H as <- <- <-; auto
    end.
Qed.

Lemma keepMimeType_notHeifAlias (m : string) : keepMimeType m = notHeifAlias m.
Proof.
  unfold keepMimeType, notHeifAlias, heifAliases; cbn [existsb].
  destruct (m =? "image/heic")%string, (m =? "image/heic-sequence")%string,
    (m =? "image/heif-sequence")%string; reflexivity.
Qed.

(** The [foreach] loop started with [acc] appends the kept types in order. *)
Lemma mimeTypeLoop_filter (supported acc : list string) :
  fold_left
    (fun mimeTypeList mimeType =>
       if keepMimeType mimeType then (mimeTypeList ++ [mimeType])%list
       else mimeTypeList)
    supported acc
  = (acc ++ filter keepMimeType supported)%list.
Proof.
  revert acc; induction supported as [| m rest IH]; intros acc; cbn [fold_left filter].
  - now rewrite app_nil_r.
  - rewrite IH. destruct (keepMimeType m); [| reflexivity].
    now rewrite <- app_assoc.
Qed.

Lemma buildMimeTypeList_filter (supported : list string) :
  buildMimeTypeList supported = filter notHeifAlias supported.
Proof.
  unfold buildMimeTypeList. rewrite mimeTypeLoop_filter. cbn [app].
  apply filter_ext, keepMimeType_notHeifAlias.
Qed.

(** C5: the save dialog is executed with exactly the supported mime types
    minus the three heif aliases, in the writer's order; "image/heif" stays
    whenever the writer supports it. *)
Theorem ShowSaveFileDialog_mime_filters :
  forall (title directory : string) (w : World QPixmap),
  exists (dialog : FileDialog) (res : DialogResult),
    snd (ShowSaveFileDialog env title directory w) =
      emits [EvFileDialogExec dialog res] w
    /\ dlgMimeTypeFilters dialog =
       filter notHeifAlias (supportedMimeTypes env w)
    /\ (forall m, In m (dlgMimeTypeFilters dialog) <->
                  In m (supportedMimeTypes env w) /\ ~ In m heifAliases)
    /\ (In "image/heif" (supportedMimeTypes env w) ->
        In "image/heif" (dlgMimeTypeFilters dialog)).
Proof.
  intros title directory w.
  unfold ShowSaveFileDialog, constFirst. step.
  match goal with
  | |- context [dialogExec env w ?d] =>
      exists d, (dialogExec env w d); set (res := dialogExec env w d)
  end.
  cbn [dlgMimeTypeFilters].
  rewrite buildMimeTypeList_filter.
  assert (Hmem : forall m,
             In m (filter notHeifAlias (supportedMimeTypes env w)) <->
             In m (supportedMimeTypes env w) /\ ~ In m heifAliases).
  { intros m. rewrite filter_In. unfold notHeifAlias.
    rewrite negb_true_iff, <- not_true_iff_false, existsb_exists.
    split; intros [Hin Hno]; (split; [exact Hin |]).
    - intros Halias. apply Hno. exists m. split; [exact Halias |].
      apply String.eqb_refl.
    - intros [x [Hx Heq]]. apply String.eqb_eq in Heq. subst x. now apply Hno. }
  split.
  - destruct (accepted res); [destruct (selectedFiles res) |]; reflexivity.
  - split; [reflexivity |]. split; [exact Hmem |].
    intros Hheif. apply Hmem. split; [exact Hheif |].
    unfold heifAliases; cbn [In].
    intros [H | [H | [H | []]]]; discriminate H.
Qed.

(** C6: the dialog is a native save-as dialog with the given title and
    directory, whose default suffix is the configured extension or "png"
    when none is configured; the function returns "" when the dialog is not
    accepted and the first selected file when it is. *)
Theorem ShowSaveFileDialog_result :
  forall (title directory : string) (w : World QPixmap),
    let extension := saveAsFileExtension (config w) in
    let suffix := if (extension =? "")%string then "png" else extension in
    exists (dialog : FileDialog) (res : DialogResult),
      dialogExec env w dialog = res
      /\ snd (ShowSaveFileDialog env title directory w) =
         emits [EvFileDialogExec dialog res] w
      /\ dlgTitle dialog = title
      /\ dlgDirectory dialog = directory
      /\ dlgAcceptMode dialog = AcceptSave
      /\ dontUseNativeDialog dialog = false
      /\ dlgDefaultSuffix dialog = suffix
      /\ (accepted res = false ->
          fst (ShowSaveFileDialog env title directory w) = Done "")
      /\ (forall first rest,
            accepted res = true ->
            selectedFiles res = first :: rest ->
            fst (ShowSaveFileDialog env title directory w) = Done first).
Proof.
  intros title directory w extension suffix.
  unfold ShowSaveFileDialog, constFirst, isEmpty. step.
  fold extension. fold suffix.
  match goal with
  | |- context [dialogExec env w ?d] =>
      exists d, (dialogExec env w d); set (res := dialogExec env w d)
  end.
  split; [reflexivity |].
  split.
  { destruct (accepted res); [destruct (selectedFiles res) |]; reflexivity. }
  do 5 (split; [reflexivity |]).
  split.
  - intros Hacc. rewrite Hacc. reflexivity.
  - intros first rest Hacc Hsel. rewrite Hacc, Hsel. reflexivity.
Qed.

(** Every action of the wl-copy path is a step of the helper backend or a
    log line. *)
Lemma saveToClipboardWlCopy_actions :
  forall (array : list byte) (imageType : string) (w : World QPixmap),
  exists t : list (Event QPixmap),
    snd (saveToClipboardWlCopy env array imageType w) = emits t w /\
    t <> [] /\
    forall e, In e t ->
              backendOf e = Some WlCopyHelper \/ backendOf e = None.
Proof.
  intros array imageType w.
  unfold saveToClipboardWlCopy.
  destruct (negb (imageType =? "png")%string).
  - step. eexists. split; [reflexivity |]. split; [discriminate |].
    cbn [In]. intros e [<- | []]. now right.
  - step.
    destruct (sys_pipe2 env w (0, 0) O_CLOEXEC) as [rc fds]. cbn [fst snd].
    destruct (rc =? -1); step.
    all: match goal with
         | |- context [sys_fork env ?w0] => destruct (sys_fork env w0 =? -1); step
         end.
    all: match goal with
         | |- context [sys_fork env ?w0] => destruct (sys_fork env w0 =? 0); step
         end.
    all: repeat match goal with
         | |- context [sys_dup2 env ?w0 ?a ?b] =>
             remember (sys_dup2 env w0 a b) as rcd eqn:Hrcd;
             destruct (rcd =? -1); step
         | |- context [sys_execlp env ?w0 ?a ?b] =>
             destruct (sys_execlp env w0 a b); step
         | |- context [sys_write env ?w0 ?a ?b ?c] =>
             destruct (sys_write env w0 a b c); step
         end.
    all: eexists; (split; [reflexivity |]); (split; [discriminate |]).
    all: cbn [In]; intros e He.
    all: repeat match goal with
         | H : _ \/ _ |- _ => destruct H as [<- | H]
         | H : False |- _ => destruct H
         end; cbn [backendOf]; auto.
Qed.

(** C10: when the encoded bytes cannot be loaded back in the same format,
    [saveToClipboardMime] only logs the error; under every combination of
    compile-time switches no backend is invoked. *)
Theorem saveToClipboardMime_load_failure :
  forall (build : Build) (capture : QPixmap) (imageType : string)
         (w : World QPixmap),
    let format := toUpperUtf8 env imageType in
    loadFromData env w (imageWrite env w capture format) format = None ->
    saveToClipboardMime env build capture imageType w =
    (Done tt,
     emits [EvLog ChError None [tr env "Error while saving to clipboard"]] w)
    /\ forall t e,
         snd (saveToClipboardMime env build capture imageType w) = emits t w ->
         In e t -> backendOf e = None.
Proof.
  intros build capture imageType w format Hload.
  assert (Hrun :
    saveToClipboardMime env build capture imageType w =
    (Done tt,
     emits [EvLog ChError None [tr env "Error while saving to clipboard"]] w)).
  { unfold saveToClipboardMime. step. fold format. rewrite Hload. reflexivity. }
  split; [exact Hrun |].
  intros t e Ht Hin. rewrite Hrun in Ht. cbn [snd] in Ht.
  apply emits_inj in Ht. subst t.
  destruct Hin as [<- | []]. reflexivity.
Qed.

(** For "png" the wl-copy path really starts the helper: the first action
    is [pipe2], a [fork] follows, and then the process that is not the
    child issues the write of the whole array, while the child issues the
    exec of wl-copy. *)
Lemma saveToClipboardWlCopy_png_starts_helper :
  forall (array : list byte) (w : World QPixmap),
  exists (out : Outcome unit) (rc : Z) (fds : Z * Z) (pid : Z)
         (rest : list (Event QPixmap)),
    saveToClipboardWlCopy env array "png" w
    = (out, emits (EvPipe2 O_CLOEXEC rc fds :: rest) w) /\
    In (EvFork pid) rest /\
    (pid <> 0 ->
     In (EvWrite (snd fds) array (Z.of_nat (List.length array))) rest) /\
    (pid = 0 ->
     In (EvExeclp "wl-copy" ["wl-copy"; "-t"; "image/png"]) rest).
Proof.
  intros array w.
  unfold saveToClipboardWlCopy; cbn [String.eqb Ascii.eqb Bool.eqb negb].
  step.
  destruct (sys_pipe2 env w (0, 0) O_CLOEXEC) as [rc fds]. cbn [fst snd].
  destruct (rc =? -1); step.
  all: match goal with
       | |- context [sys_fork env ?w0] =>
           remember (sys_fork env w0) as pid eqn:Hpid
       end.
  all: destruct (pid =? -1) eqn:Epid; step.
  all: destruct (pid =? 0) eqn:Ep0; step.
  all: try (apply Z.eqb_eq in Epid; apply Z.eqb_eq in Ep0; lia).
  all: repeat match goal with
       | |- context [sys_dup2 env ?w0 ?a ?b] =>
           remember (sys_dup2 env w0 a b) as rcd eqn:Hrcd;
           destruct (rcd =? -1); step
       | |- context [sys_execlp env ?w0 ?a ?b] =>
           destruct (sys_execlp env w0 a b); step
       | |- context [sys_write env ?w0 ?a ?b ?c] =>
           destruct (sys_write env w0 a b c); step
       end.
  all: eexists _, rc, fds, pid, _; (split; [reflexivity |]).
  all: cbn [In]; split; [auto 12 |].
  all: split; intros Hp;
       try (apply Z.eqb_eq in Ep0; contradiction);
       try (apply Z.eqb_neq in Ep0; contradiction);
       auto 15.
Qed.

(** C4: when the encoded bytes load back, [saveToClipboardMime] hands the
    image to the backend the compile-time switches select, and to no other.
    With USE_WL_COPY that is the wl-copy helper path: for "png" it creates
    the pipe, forks, and writes the encoded bytes (or, in the child, execs
    wl-copy); for any other type it only logs the error and nothing is
    pushed.  Otherwise, with USE_WAYLAND_CLIPBOARD it is KSystemClipboard,
    and with neither the Qt clipboard with "image/<type>" mime data. *)
Theorem saveToClipboardMime_backend :
  forall (build : Build) (capture : QPixmap) (imageType : string)
         (w : World QPixmap) (formattedPixmap : QPixmap),
    let format := toUpperUtf8 env imageType in
    let array := imageWrite env w capture format in
    loadFromData env w array format = Some formattedPixmap ->
    match selectedBackend build with
    | WlCopyHelper =>
        saveToClipboardMime env build capture imageType w =
        saveToClipboardWlCopy env array imageType w
        /\ (imageType <> "png" ->
            saveToClipboardMime env build capture imageType w =
            (Done tt,
             emits [EvLog ChError None ["WL_COPY option only supports png"]]
               w))
        /\ (imageType = "png" ->
            exists (out : Outcome unit) (rc : Z) (fds : Z * Z) (pid : Z)
                   (rest : list (Event QPixmap)),
              saveToClipboardMime env build capture imageType w
              = (out, emits (EvPipe2 O_CLOEXEC rc fds :: rest) w) /\
              In (EvFork pid) rest /\
              (pid <> 0 ->
               In (EvWrite (snd fds) array (Z.of_nat (List.length array)))
                  rest) /\
              (pid = 0 ->
               In (EvExeclp "wl-copy" ["wl-copy"; "-t"; "image/png"]) rest))
    | KSystemClipboard =>
        saveToClipboardMime env build capture imageType w =
        (Done tt,
         emits [EvLog ChInfo None ["wl_wayland_copy"];
                EvKSystemClipboardSetMimeData
                  [MimeImageData formattedPixmap;
                   MimeData "x-kde-force-image-copy" []]] w)
    | QtClipboard =>
        saveToClipboardMime env build capture imageType w =
        (Done tt,
         emits [EvQClipboardSetMimeData
                  [MimeData ("image/" ++ imageType) array]] w)
    end
    /\ exists t : list (Event QPixmap),
         snd (saveToClipboardMime env build capture imageType w) = emits t w
         /\ t <> []
         /\ forall e b, In e t -> backendOf e = Some b ->
                        b = selectedBackend build.
Proof.
  intros build capture imageType w formattedPixmap format array Hload.
  unfold saveToClipboardMime, selectedBackend. step.
  fold format. fold array. rewrite Hload.
  destruct (USE_WL_COPY build); [| destruct (USE_WAYLAND_CLIPBOARD build)].
  - split.
    + split; [reflexivity |]. split.
      * intros Hty. unfold saveToClipboardWlCopy.
        destruct (String.eqb_spec imageType "png") as [E | _];
          [contradiction | reflexivity].
      * intros ->. apply saveToClipboardWlCopy_png_starts_helper.
    + destruct (saveToClipboardWlCopy_actions array imageType w)
        as (t & Ht & Hne & Hall).
      exists t. split; [exact Ht |]. split; [exact Hne |].
      intros e b Hin Hb. destruct (Hall e Hin) as [H | H]; congruence.
  - step. split; [reflexivity |].
    eexists. split; [reflexivity |]. split; [discriminate |].
    cbn [In]. intros e b [<- | [<- | []]] Hb; cbn [backendOf] in Hb; congruence.
  - step. split; [reflexivity |].
    eexists. split; [reflexivity |]. split; [discriminate |].
    cbn [In]. intros e b [<- | []] Hb; cbn [backendOf] in Hb; congruence.
Qed.

(** ** [pathNoFile] is the text before the last slash *)

Lemma lastIndexOf_from_absent (c : ascii) (s : string) :
  forall p q : Z,
    0 <= p -> 0 <= q ->
    lastIndexOf_from c s p = -1 -> lastIndexOf_from c s q = -1.
Proof.
  induction s as [| a rest IH]; intros p q Hp Hq; cbn [lastIndexOf_from].
  - reflexivity.
  - destruct (lastIndexOf_from c rest (p + 1) =? -1) eqn:Elater.
    + apply Z.eqb_eq in Elater.
      rewrite (IH (p + 1) (q + 1)) by (lia || assumption).
      cbn [Z.eqb]. destruct (Ascii.eqb a c); [lia | reflexivity].
    + apply Z.eqb_neq in Elater. intros H. contradiction.
Qed.

Lemma lastIndexOf_from_last (c : ascii) (name : string) :
  lastIndexOf_from c name 0 = -1 ->
  forall (dir : string) (p : Z),
    0 <= p ->
    lastIndexOf_from c (dir ++ String c name) p
    = p + Z.of_nat (String.length dir).
Proof.
  intros Hname dir; induction dir as [| a d IH]; intros p Hp.
  - cbn [append lastIndexOf_from String.length].
    rewrite (lastIndexOf_from_absent c name 0 (p + 1)) by (lia || assumption).
    cbn [Z.eqb]. rewrite Ascii.eqb_refl. cbn. lia.
  - cbn [append lastIndexOf_from String.length].
    rewrite IH by lia.
    replace (p + 1 + Z.of_nat (String.length d) =? -1) with false
      by (symmetry; apply Z.eqb_neq; lia).
    lia.
Qed.

Lemma substring_prefix (a b : string) :
  substring 0 (String.length a) (a ++ b) = a.
Proof.
  induction a as [| x a IH]; cbn [append String.length substring].
  - destruct b; reflexivity.
  - now rewrite IH.
Qed.

Lemma length_append (a b : string) :
  String.length (a ++ b) = (String.length a + String.length b)%nat.
Proof.
  induction a as [| x a IH]; cbn [append String.length Nat.add];
    [reflexivity | now rewrite IH].
Qed.

Lemma pathNoFile_directory (dir name : string) :
  lastIndexOf name "/"%char = -1 ->
  pathNoFile (dir ++ "/" ++ name) = dir.
Proof.
  intros Hname. unfold pathNoFile, lastIndexOf, left in *.
  change (dir ++ "/" ++ name) with (dir ++ String "/"%char name).
  rewrite lastIndexOf_from_last by (assumption || lia).
  rewrite length_append. cbn [String.length Z.add].
  replace (Z.of_nat (String.length dir) <? 0) with false
    by (symmetry; apply Z.ltb_ge; lia).
  replace (Z.of_nat (String.length dir + S (String.length name))
           <=? Z.of_nat (String.length dir)) with false
    by (symmetry; apply Z.leb_gt; lia).
  cbn [orb]. rewrite Nat2Z.id. apply substring_prefix.
Qed.

(** The macOS loop only shows and hides a widget. *)
Lemma hideCaptureWidget_run :
  forall (widgets : list (nat * string)) (w : World QPixmap),
  exists t : list (Event QPixmap),
    hideCaptureWidget widgets w = (Done tt, emits t w) /\
    forall e, In e t -> exists n, e = EvShowNormal n \/ e = EvHide n.
Proof.
  induction widgets as [| [widget className] rest IH]; intros w;
    cbn [hideCaptureWidget].
  - exists []. rewrite emits_nil. split; [reflexivity | intros e []].
  - destruct (className =? "CaptureWidget")%string.
    + step. eexists. split; [reflexivity |].
      cbn [In]. intros e [<- | [<- | []]]; eauto.
    + apply IH.
Qed.

Lemma history_suffix (h t a : list (Event QPixmap)) :
  (h ++ a)%list = (h ++ t)%list -> t = a.
Proof. intros H. now apply app_inv_head in H. Qed.

Lemma bind_run {A B : Type} (m : M QPixmap A) (k : A -> M QPixmap B)
  (w w1 : World QPixmap) (o : Outcome A) :
  m w = (o, w1) ->
  bind m k w =
  match o with
  | Done a => k a w1
  | Replaced => (Replaced, w1)
  | Killed => (Killed, w1)
  | Undefined => (Undefined, w1)
  end.
Proof. intros H. unfold bind. rewrite H. reflexivity. Qed.

Lemma hideCaptureWidget_when (build : Build) (w : World QPixmap) :
  exists tw : list (Event QPixmap),
    when (Q_OS_MACOS build)
      (bind (ask (topLevelWidgets env))
         (fun widgets => hideCaptureWidget widgets)) w
    = (Done tt, emits tw w) /\
    forall e, In e tw -> exists n, e = EvShowNormal n \/ e = EvHide n.
Proof.
  destruct (Q_OS_MACOS build); cbn [when].
  - cbn [bind ask].
    destruct (hideCaptureWidget_run (topLevelWidgets env w) w)
      as (tw & Hw & Hall).
    exists tw. rewrite Hw. split; [reflexivity | exact Hall].
  - exists []. rewrite emits_nil. split; [reflexivity | intros e []].
Qed.

(** The dialog is executed once; when it is not accepted the result is
    the empty string. *)
Lemma ShowSaveFileDialog_run (title directory : string) (w : World QPixmap) :
  exists (dialog : FileDialog) (res : DialogResult) (o : Outcome string),
    ShowSaveFileDialog env title directory w =
      (o, emits [EvFileDialogExec dialog res] w) /\
    (accepted res = false -> o = Done "").
Proof.
  unfold ShowSaveFileDialog, constFirst. step.
  match goal with
  | |- context [dialogExec env w ?d] =>
      exists d, (dialogExec env w d); set (res := dialogExec env w d)
  end.
  destruct (accepted res); [destruct (selectedFiles res) |];
    eexists; (split; [reflexivity |]); intros; try discriminate; reflexivity.
Qed.

Ltac split_in H :=
  repeat match type of H with
         | In _ (_ ++ _)%list => apply in_app_or in H; destruct H as [H | H]
         | In _ (_ :: _) => destruct H as [H | H]
         | In _ [] => destruct H
         end.

(** X17: [saveToFilesystemGUI] changes the configuration only by setting
    the save path after a successful save.  With [t] the actions of the
    call: a successful save of path [p] makes the call return true and
    sets the save path to [pathNoFile p], the text of [p] before its last
    slash; without one the call does not return true and the
    configuration is untouched; a dialog that was not accepted makes it
    return false with no file opened or saved and the configuration
    untouched; and [pathNoFile] of dir/name is dir. *)
Theorem saveToFilesystemGUI_savePath_only_on_success :
  forall (build : Build) (capture : QPixmap) (w w' : World QPixmap)
         (out : Outcome bool) (t : list (Event QPixmap)),
    saveToFilesystemGUI env build capture w = (out, w') ->
    history w' = (history w ++ t)%list ->
    (forall c p, In (EvPixmapSave c p true) t ->
                 out = Done true /\
                 config w' = with_savePath (pathNoFile p) (config w))
    /\ ((forall c p, ~ In (EvPixmapSave c p true) t) ->
        out <> Done true /\ config w' = config w)
    /\ (forall dialog res,
          In (EvFileDialogExec dialog res) t -> accepted res = false ->
          out = Done false /\ config w' = config w /\
          forall e, In e t -> isFileWrite e = false)
    /\ (forall dir name,
          lastIndexOf name "/"%char = -1 ->
          pathNoFile (dir ++ "/" ++ name) = dir).
Proof.
  intros build capture w w' out t Hrun Ht.
  revert Hrun Ht.
  unfold saveToFilesystemGUI.
  cbn [bind ask ret act when].
  set (path0 := properScreenshotPath env w _ _).
  destruct (hideCaptureWidget_when build w) as (tw & Hw & Hall).
  rewrite (bind_run _ _ _ _ _ Hw).
  cbn [bind ask]; rewrite config_emits.
  assert (Hwidget : forall e, In e tw ->
            isFileWrite e = false /\
            (forall c p o, e <> EvPixmapSave c p o) /\
            (forall d r, e <> EvFileDialogExec d r)).
  { intros e He. destruct (Hall e He) as [n [-> | ->]];
      repeat split; intros; discriminate. }
  clear Hall Hw.
  destruct (savePathFixed (config w)); cbn [negb].
  - (* the path is fixed: no dialog *)
    step. destruct (path0 =? "")%string eqn:Epath; step.
    2: match goal with
       | |- context [pixmapSave env ?w0 ?c ?p] =>
           destruct (pixmapSave env w0 c p) eqn:Eok
       end; step.
    2: destruct (copyPathAfterSave _); step.
    all: intros Hrun Ht; injection Hrun as <- <-.
    all: unfold emits in Ht; cbn [history config] in Ht;
         rewrite <- ?app_assoc in Ht; apply history_suffix in Ht; subst t.
    all: unfold emits; cbn [config history].
    all: split; [| split; [| split; [| exact pathNoFile_directory]]].
    all: try (intros c p Hin; split_in Hin;
              try (apply Hwidget in Hin; destruct Hin as (_ & Hs & _);
                   exfalso; exact (Hs _ _ _ eq_refl));
              try discriminate Hin;
              injection Hin as <- <-; split; reflexivity).
    all: try (intros Hno;
              first [ split; [discriminate | reflexivity]
                    | exfalso; apply (Hno capture path0);
                      apply in_or_app; right; cbn [In app]; auto ]).
    all: intros d r Hin Hacc; split_in Hin;
         try (apply Hwidget in Hin; destruct Hin as (_ & _ & Hd);
              exfalso; exact (Hd _ _ eq_refl));
         discriminate Hin.
  - (* the dialog is shown *)
    destruct (ShowSaveFileDialog_run (tr env "Save screenshot") path0
                (emits tw w)) as (dlg & res & o & Hd & Hcancel).
    rewrite (bind_run _ _ _ _ _ Hd). clear Hd.
    destruct o as [path | | |].
    1: destruct (path =? "")%string eqn:Epath; step.
    2: match goal with
       | |- context [pixmapSave env ?w0 ?c ?p] =>
           destruct (pixmapSave env w0 c p) eqn:Eok
       end; step.
    2: destruct (copyPathAfterSave _); step.
    all: rewrite ?emits_emits.
    all: intros Hrun Ht; injection Hrun as <- <-.
    all: unfold emits in Ht; cbn [history config] in Ht;
         rewrite <- ?app_assoc in Ht; apply history_suffix in Ht; subst t.
    all: unfold emits; cbn [config history].
    all: split; [| split; [| split; [| exact pathNoFile_directory]]].
    all: try (intros c p Hin; split_in Hin;
              try (apply Hwidget in Hin; destruct Hin as (_ & Hs & _);
                   exfalso; exact (Hs _ _ _ eq_refl));
              try discriminate Hin;
              injection Hin as <- <-; split; reflexivity).
    all: try (intros Hno;
              first [ split; [discriminate | reflexivity]
                    | exfalso; apply (Hno capture path);
                      apply in_or_app; right; cbn [In app]; auto ]).
    all: intros d r Hin Hacc; split_in Hin;
         try (apply Hwidget in Hin; destruct Hin as (_ & _ & Hd);
              exfalso; exact (Hd _ _ eq_refl));
         try discriminate Hin;
         injection Hin as <- <-; specialize (Hcancel Hacc);
         try discriminate Hcancel;
         injection Hcancel as ->; try discriminate Epath.
    split; [reflexivity |]. split; [reflexivity |].
    intros e He. split_in He.
    + now apply Hwidget in He.
    + subst e. reflexivity.
Qed.

(** ** Further properties of the wl-copy path *)

(** Every action of the wl-copy path is a step of the helper backend or a
    line on the error logger. *)
Lemma saveToClipboardWlCopy_run :
  forall (array : list byte) (imageType : string) (w : World QPixmap),
  exists (out : Outcome unit) (t : list (Event QPixmap)),
    saveToClipboardWlCopy env array imageType w = (out, emits t w) /\
    (out = Done tt \/ out = Replaced \/ out = Killed) /\
    (imageType <> "png" -> out = Done tt /\ forall e, In e t -> isLog e = true) /\
    forall e, In e t ->
              backendOf e = Some WlCopyHelper \/ isLog e = true.
Proof.
  intros array imageType w.
  unfold saveToClipboardWlCopy.
  destruct (String.eqb_spec imageType "png") as [Hty | Hty]; cbn [negb].
  - step.
    destruct (sys_pipe2 env w (0, 0) O_CLOEXEC) as [rc fds]. cbn [fst snd].
    destruct (rc =? -1); step.
    all: match goal with
         | |- context [sys_fork env ?w0] => destruct (sys_fork env w0 =? -1); step
         end.
    all: match goal with
         | |- context [sys_fork env ?w0] => destruct (sys_fork env w0 =? 0); step
         end.
    all: repeat match goal with
         | |- context [sys_dup2 env ?w0 ?a ?b] =>
             remember (sys_dup2 env w0 a b) as rcd eqn:Hrcd;
             destruct (rcd =? -1); step
         | |- context [sys_execlp env ?w0 ?a ?b] =>
             destruct (sys_execlp env w0 a b); step
         | |- context [sys_write env ?w0 ?a ?b ?c] =>
             destruct (sys_write env w0 a b c); step
         end.
    all: eexists; eexists; (split; [reflexivity |]).
    all: (split; [auto |]); (split; [intros Hne; contradiction |]).
    all: cbn [In]; intros e He.
    all: repeat match goal with
         | H : _ \/ _ |- _ => destruct H as [<- | H]
         | H : False |- _ => destruct H
         end; cbn [backendOf isLog]; auto.
  - step. eexists; eexists. split; [reflexivity |]. split; [auto |].
    split.
    + intros _. split; [reflexivity |]. cbn [In]. intros e [<- | []]. reflexivity.
    + cbn [In]. intros e [<- | []]. now right.
Qed.

(** X1: for "png", a call that comes back has issued exactly one [write],
    and that write carries the whole array; a call that does not come back
    because the helper was exec'ed has issued none; a call terminated by a
    signal was terminated inside its one write of the array. *)
Theorem saveToClipboardWlCopy_one_write_when_it_returns :
  forall (array : list byte) (w : World QPixmap),
  exists (out : Outcome unit) (t : list (Event QPixmap)),
    saveToClipboardWlCopy env array "png" w = (out, emits t w) /\
    (out = Done tt ->
     exists fd, filter isWrite t
                = [EvWrite fd array (Z.of_nat (List.length array))]) /\
    (out = Replaced -> filter isWrite t = []) /\
    (out = Killed ->
     exists fd before,
       t = (before ++ [EvWrite fd array (Z.of_nat (List.length array))])%list
       /\ filter isWrite before = []).
Proof.
  intros array w.
  unfold saveToClipboardWlCopy; cbn [String.eqb Ascii.eqb Bool.eqb negb].
  step.
  destruct (sys_pipe2 env w (0, 0) O_CLOEXEC) as [rc fds]. cbn [fst snd].
  destruct (rc =? -1); step.
  all: match goal with
       | |- context [sys_fork env ?w0] => destruct (sys_fork env w0 =? -1); step
       end.
  all: match goal with
       | |- context [sys_fork env ?w0] => destruct (sys_fork env w0 =? 0); step
       end.
  all: repeat match goal with
       | |- context [sys_dup2 env ?w0 ?a ?b] =>
           remember (sys_dup2 env w0 a b) as rcd eqn:Hrcd;
           destruct (rcd =? -1); step
       | |- context [sys_execlp env ?w0 ?a ?b] =>
           destruct (sys_execlp env w0 a b); step
       | |- context [sys_write env ?w0 ?a ?b ?c] =>
           destruct (sys_write env w0 a b c); step
       end.
  all: eexists; eexists; (split; [reflexivity |]).
  all: cbn [filter isWrite].
  all: split; [intros H; try discriminate H; eexists; reflexivity |].
  all: split; [intros H; try discriminate H; reflexivity |].
  all: intros H; try discriminate H.
  all: eexists.
  all: first
    [ eexists [_; _; _]; split; reflexivity
    | eexists [_; _; _; _]; split; reflexivity
    | eexists [_; _; _; _; _]; split; reflexivity
    | eexists [_; _; _; _; _; _]; split; reflexivity
    | eexists [_; _; _; _; _; _; _]; split; reflexivity
    | eexists [_; _; _; _; _; _; _; _]; split; reflexivity
    | eexists [_; _; _; _; _; _; _; _; _]; split; reflexivity
    | eexists [_; _; _; _; _; _; _; _; _; _]; split; reflexivity ].
Qed.

(** X2: when [execlp] comes back in the child (the helper could not be
    started), the child does not stop: it goes on with the steps meant for
    the parent (close, write, close, [waitpid(0)]) and, its write having
    returned, returns to the caller (a write that raises a fatal signal is
    its last action). *)
Theorem saveToClipboardWlCopy_child_runs_on_when_exec_fails :
  forall (array : list byte) (w : World QPixmap) (rc rd wr rcd rce : Z),
    sys_pipe2 env w (0, 0) O_CLOEXEC = (rc, (rd, wr)) ->
    rc <> -1 ->
    sys_fork env (emits [EvPipe2 O_CLOEXEC rc (rd, wr)] w) = 0 ->
    sys_dup2 env
      (emits [EvPipe2 O_CLOEXEC rc (rd, wr); EvFork 0; EvClose wr] w)
      rd STDIN_FILENO = rcd ->
    rcd <> -1 ->
    sys_execlp env
      (emits [EvPipe2 O_CLOEXEC rc (rd, wr); EvFork 0; EvClose wr;
              EvDup2 rd STDIN_FILENO rcd; EvClose rd] w)
      "wl-copy" ["wl-copy"; "-t"; "image/png"] = Some rce ->
    saveToClipboardWlCopy env array "png" w =
    match sys_write env
            (emits [EvPipe2 O_CLOEXEC rc (rd, wr); EvFork 0; EvClose wr;
                    EvDup2 rd STDIN_FILENO rcd; EvClose rd;
                    EvExeclp "wl-copy" ["wl-copy"; "-t"; "image/png"];
                    EvClose rd] w)
            wr array (Z.of_nat (List.length array))
    with
    | Some _ =>
        (Done tt,
         emits [EvPipe2 O_CLOEXEC rc (rd, wr);
                EvFork 0;
                EvClose wr;
                EvDup2 rd STDIN_FILENO rcd;
                EvClose rd;
                EvExeclp "wl-copy" ["wl-copy"; "-t"; "image/png"];
                EvClose rd;
                EvWrite wr array (Z.of_nat (List.length array));
                EvClose wr;
                EvWaitpid 0 0] w)
    | None =>
        (Killed,
         emits [EvPipe2 O_CLOEXEC rc (rd, wr);
                EvFork 0;
                EvClose wr;
                EvDup2 rd STDIN_FILENO rcd;
                EvClose rd;
                EvExeclp "wl-copy" ["wl-copy"; "-t"; "image/png"];
                EvClose rd;
                EvWrite wr array (Z.of_nat (List.length array))] w)
    end.
Proof.
  intros array w rc rd wr rcd rce Hpipe Hrc Hfork Hdup Hrcd Hexec.
  apply Z.eqb_neq in Hrc. apply Z.eqb_neq in Hrcd.
  unfold saveToClipboardWlCopy; cbn [String.eqb Ascii.eqb Bool.eqb negb].
  step. rewrite Hpipe; cbn [fst snd]. rewrite Hrc. step.
  rewrite Hfork. cbn [Z.eqb]. step.
  rewrite Hdup, Hrcd. step.
  rewrite Hexec. step.
  destruct (sys_write env _ wr array _); step; reflexivity.
Qed.

(** ** [saveToClipboardMime] and [saveToClipboard] *)

Lemma prefix_append (a b : string) : String.prefix a (a ++ b) = true.
Proof.
  induction a as [| x a IH]; cbn [append String.prefix].
  - destruct b; reflexivity.
  - destruct (ascii_dec x x) as [_ | Hne]; [exact IH | now elim Hne].
Qed.

Lemma run_emits_inj {A : Type} (o o' : Outcome A)
  (a b : list (Event QPixmap)) (w : World QPixmap) :
  (o, emits a w) = (o', emits b w) -> o = o' /\ a = b.
Proof.
  intros H. apply pair_equal_spec in H. destruct H as [Ho Hw].
  split; [exact Ho | exact (emits_inj _ _ _ Hw)].
Qed.

Lemma prefix_refl (a : string) : String.prefix a a = true.
Proof.
  induction a as [| x a IH]; cbn [String.prefix]; [reflexivity |].
  destruct (ascii_dec x x) as [_ | Hne]; [exact IH | now elim Hne].
Qed.

Lemma append_assoc (a b c : string) : ((a ++ b) ++ c = a ++ (b ++ c))%string.
Proof. induction a as [| x a IH]; cbn [append]; [| rewrite IH]; reflexivity. Qed.

(** What [saveToFilesystem] does, with the text of its log line. *)
Lemma saveToFilesystem_run :
  forall (capture : QPixmap) (path messagePrefix : string) (w : World QPixmap),
  exists (okay : bool) (ch : Channel) (attached : option string) (msg : string),
    saveToFilesystem env capture path messagePrefix w =
    (Done okay,
     emits [EvFileOpen
              (properScreenshotPath env w path (saveAsFileExtension (config w)));
            EvPixmapSave capture
              (properScreenshotPath env w path (saveAsFileExtension (config w)))
              okay;
            EvLog ch attached [msg]] w) /\
    String.prefix messagePrefix msg = true.
Proof.
  intros capture path messagePrefix w.
  unfold saveToFilesystem, isEmpty. step.
  set (completePath :=
         properScreenshotPath env w path (saveAsFileExtension (config w))).
  match goal with
  | |- context [pixmapSave env ?w0 ?c ?p] =>
      destruct (pixmapSave env w0 c p) eqn:Eok
  end; step.
  all: repeat match goal with
       | |- context [if ?b then _ else _] => destruct b
       end.
  all: do 4 eexists; (split; [reflexivity |]); cbn [negb];
       rewrite ?append_assoc; apply prefix_append.
Qed.

(** What [saveToClipboardMime] can do: log lines and actions of the one
    backend the build selects, nothing else. *)
Lemma saveToClipboardMime_run :
  forall (build : Build) (capture : QPixmap) (imageType : string)
         (w : World QPixmap),
  exists (out : Outcome unit) (t : list (Event QPixmap)),
    saveToClipboardMime env build capture imageType w = (out, emits t w) /\
    (out = Done tt \/ out = Replaced \/ out = Killed) /\
    (USE_WL_COPY build = false -> out = Done tt) /\
    (USE_WL_COPY build = true -> imageType <> "png" ->
     out = Done tt /\ forall e, In e t -> isLog e = true) /\
    forall e, In e t ->
              backendOf e = Some (selectedBackend build) \/ isLog e = true.
Proof.
  intros build capture imageType w.
  unfold saveToClipboardMime, selectedBackend. step.
  match goal with
  | |- context [loadFromData env w ?a ?f] => destruct (loadFromData env w a f)
  end.
  - destruct (USE_WL_COPY build); [| destruct (USE_WAYLAND_CLIPBOARD build)].
    + match goal with
      | |- context [saveToClipboardWlCopy env ?a imageType w] =>
          destruct (saveToClipboardWlCopy_run a imageType w)
            as (out & t & Hrun & Hout & Hother & Hall)
      end.
      exists out, t. split; [exact Hrun |]. split; [exact Hout |].
      split; [discriminate |]. split; [intros _; exact Hother | exact Hall].
    + step. eexists; eexists. split; [reflexivity |]. split; [auto |].
      split; [reflexivity |]. split; [discriminate |].
      cbn [In]. intros e [<- | [<- | []]]; cbn; auto.
    + step. eexists; eexists. split; [reflexivity |]. split; [auto |].
      split; [reflexivity |]. split; [discriminate |].
      cbn [In]. intros e [<- | []]; cbn; auto.
  - step. eexists; eexists. split; [reflexivity |]. split; [auto |].
    split; [reflexivity |].
    split; [intros _ _; split; [reflexivity |] |];
      cbn [In]; intros e [<- | []]; cbn; auto.
Qed.

(** The two halves of [saveToClipboard]: [pre] is the notification (through
    [saveToFilesystem] or the default logger), [post] the clipboard part. *)
Lemma saveToClipboard_shape :
  forall (build : Build) (capture : QPixmap) (w : World QPixmap),
  exists (pre post : list (Event QPixmap)) (out : Outcome unit),
    saveToClipboard env build capture w = (out, emits (pre ++ post)%list w) /\
    (if saveAfterCopy (config w) && negb (isEmpty (savePath (config w)))
     then exists (okay : bool) (ch : Channel) (attached : option string)
                 (msg : string),
         pre = [EvFileOpen
                  (properScreenshotPath env w (savePath (config w))
                     (saveAsFileExtension (config w)));
                EvPixmapSave capture
                  (properScreenshotPath env w (savePath (config w))
                     (saveAsFileExtension (config w)))
                  okay;
                EvLog ch attached [msg]] /\
         String.prefix (tr env "Capture saved to clipboard.") msg = true
     else pre = [EvLog ChDefault None [tr env "Capture saved to clipboard."]]) /\
    (if useJpgForClipboard (config w)
     then saveToClipboardMime env build capture "jpeg" (emits pre w)
          = (out, emits post (emits pre w))
     else if (Q_OS_LINUX build || Q_OS_UNIX build)
             && waylandDetected env (emits pre w)
     then saveToClipboardMime env build capture "png" (emits pre w)
          = (out, emits post (emits pre w))
     else out = Done tt /\ post = [EvQClipboardSetPixmap capture]).
Proof.
  intros build capture w.
  unfold saveToClipboard. cbn [bind ask ret].
  assert (Hhead : exists pre,
    (if saveAfterCopy (config w) && negb (isEmpty (savePath (config w)))
     then bind (saveToFilesystem env capture (savePath (config w))
                  (tr env "Capture saved to clipboard."))
            (fun _ : bool => ret tt)
     else log ChDefault None [tr env "Capture saved to clipboard."]) w
    = (Done tt, emits pre w) /\
    (if saveAfterCopy (config w) && negb (isEmpty (savePath (config w)))
     then exists (okay : bool) (ch : Channel) (attached : option string)
                 (msg : string),
         pre = [EvFileOpen
                  (properScreenshotPath env w (savePath (config w))
                     (saveAsFileExtension (config w)));
                EvPixmapSave capture
                  (properScreenshotPath env w (savePath (config w))
                     (saveAsFileExtension (config w)))
                  okay;
                EvLog ch attached [msg]] /\
         String.prefix (tr env "Capture saved to clipboard.") msg = true
     else pre = [EvLog ChDefault None [tr env "Capture saved to clipboard."]])).
  { destruct (saveAfterCopy (config w) && negb (isEmpty (savePath (config w)))).
    - destruct (saveToFilesystem_run capture (savePath (config w))
                  (tr env "Capture saved to clipboard.") w)
        as (okay & ch & attached & msg & Hrun & Hmsg).
      eexists. split.
      + unfold bind. rewrite Hrun. reflexivity.
      + exists okay, ch, attached, msg. split; [reflexivity | exact Hmsg].
    - eexists. split; reflexivity. }
  destruct Hhead as (pre & Hhead & Hpre).
  rewrite (bind_run _ _ _ _ _ Hhead). cbn [bind ask]. rewrite config_emits.
  exists pre.
  destruct (useJpgForClipboard (config w)).
  - destruct (saveToClipboardMime_run build capture "jpeg" (emits pre w))
      as (out & post & Hrun & _).
    exists post, out. rewrite Hrun, emits_emits. auto.
  - destruct (Q_OS_LINUX build || Q_OS_UNIX build); cbn [andb bind ask].
    + destruct (waylandDetected env (emits pre w)).
      * destruct (saveToClipboardMime_run build capture "png" (emits pre w))
          as (out & post & Hrun & _).
        exists post, out. rewrite Hrun, emits_emits. auto.
      * eexists; eexists. unfold act. rewrite emits_emits. auto.
    + eexists; eexists. unfold act. rewrite emits_emits. auto.
Qed.

(** The notification half holds no backend action and no dialog; it holds
    file actions only when the capture is also saved to disk. *)
Lemma saveToClipboard_pre_events
  (capture : QPixmap) (w : World QPixmap) (pre : list (Event QPixmap)) :
  (if saveAfterCopy (config w) && negb (isEmpty (savePath (config w)))
   then exists (okay : bool) (ch : Channel) (attached : option string)
               (msg : string),
       pre = [EvFileOpen
                (properScreenshotPath env w (savePath (config w))
                   (saveAsFileExtension (config w)));
              EvPixmapSave capture
                (properScreenshotPath env w (savePath (config w))
                   (saveAsFileExtension (config w)))
                okay;
              EvLog ch attached [msg]] /\
       String.prefix (tr env "Capture saved to clipboard.") msg = true
   else pre = [EvLog ChDefault None [tr env "Capture saved to clipboard."]]) ->
  forall e, In e pre ->
    backendOf e = None /\ isDialog e = false /\
    (isFileWrite e = true ->
     saveAfterCopy (config w) && negb (isEmpty (savePath (config w))) = true).
Proof.
  intros Hpre e He.
  destruct (saveAfterCopy (config w) && negb (isEmpty (savePath (config w)))).
  - destruct Hpre as (okay & ch & attached & msg & -> & _).
    cbn [In] in He. destruct He as [<- | [<- | [<- | []]]]; cbn; auto.
  - subst pre. destruct He as [<- | []]. cbn. repeat split; auto; discriminate.
Qed.

(** Backend actions and log lines are neither file actions nor dialogs. *)
Lemma backend_or_log_event (b : Backend) (e : Event QPixmap) :
  backendOf e = Some b \/ isLog e = true ->
  isFileWrite e = false /\ isDialog e = false.
Proof. destruct e; cbn; intros [H | H]; try discriminate H; auto. Qed.

(** X3: [saveToClipboard] sends its notification before it touches the
    clipboard: the actions split around a log line whose text starts with
    tr("Capture saved to clipboard."), and no clipboard backend action
    comes before that line. *)
Theorem saveToClipboard_notifies_before_copying :
  forall (build : Build) (capture : QPixmap) (w : World QPixmap),
  exists (before after : list (Event QPixmap)) (out : Outcome unit)
         (ch : Channel) (attached : option string) (msg : string),
    saveToClipboard env build capture w
    = (out, emits (before ++ EvLog ch attached [msg] :: after)%list w) /\
    String.prefix (tr env "Capture saved to clipboard.") msg = true /\
    forall e, In e before -> backendOf e = None.
Proof.
  intros build capture w.
  destruct (saveToClipboard_shape build capture w)
    as (pre & post & out & Hrun & Hpre & _).
  destruct (saveAfterCopy (config w) && negb (isEmpty (savePath (config w)))).
  - destruct Hpre as (okay & ch & attached & msg & -> & Hmsg).
    eexists [_; _], post, out, ch, attached, msg.
    split; [exact Hrun |]. split; [exact Hmsg |].
    cbn [In]. intros e [<- | [<- | []]]; reflexivity.
  - subst pre.
    exists [], post, out, ChDefault, None, (tr env "Capture saved to clipboard.").
    split; [exact Hrun |]. split.
    + apply prefix_refl.
    + intros e [].
Qed.

(** X4: [saveToClipboard] writes a file only when saving after copy is
    configured and the save path is not empty; then the one file it opens
    and saves is the one [properScreenshotPath] names. *)
Theorem saveToClipboard_saves_file_only_when_configured :
  forall (build : Build) (capture : QPixmap) (w : World QPixmap),
  exists (out : Outcome unit) (t : list (Event QPixmap)),
    saveToClipboard env build capture w = (out, emits t w) /\
    (forall e, In e t -> isFileWrite e = true ->
               saveAfterCopy (config w) = true /\ savePath (config w) <> "") /\
    (saveAfterCopy (config w) = true -> savePath (config w) <> "" ->
     exists okay,
       filter isFileWrite t
       = [EvFileOpen
            (properScreenshotPath env w (savePath (config w))
               (saveAsFileExtension (config w)));
          EvPixmapSave capture
            (properScreenshotPath env w (savePath (config w))
               (saveAsFileExtension (config w)))
            okay]).
Proof.
  intros build capture w.
  destruct (saveToClipboard_shape build capture w)
    as (pre & post & out & Hrun & Hpre & Hpost).
  pose proof (saveToClipboard_pre_events capture w pre Hpre) as Hevents.
  assert (Hclip : forall e, In e post -> isFileWrite e = false).
  { intros e He.
    destruct (useJpgForClipboard (config w)).
    - destruct (saveToClipboardMime_run build capture "jpeg" (emits pre w))
        as (out' & t' & Hrun' & _ & _ & _ & Hall).
      rewrite Hrun' in Hpost. apply run_emits_inj in Hpost.
      destruct Hpost as [_ <-].
      exact (proj1 (backend_or_log_event _ e (Hall e He))).
    - destruct ((Q_OS_LINUX build || Q_OS_UNIX build)
                && waylandDetected env (emits pre w)).
      + destruct (saveToClipboardMime_run build capture "png" (emits pre w))
          as (out' & t' & Hrun' & _ & _ & _ & Hall).
        rewrite Hrun' in Hpost. apply run_emits_inj in Hpost.
        destruct Hpost as [_ <-].
        exact (proj1 (backend_or_log_event _ e (Hall e He))).
      + destruct Hpost as (_ & ->). destruct He as [<- | []]. reflexivity. }
  assert (Hfilter : filter isFileWrite post = []).
  { clear - Hclip. induction post as [| e post IH]; [reflexivity |].
    cbn [filter]. rewrite (Hclip e (or_introl eq_refl)).
    apply IH. intros e' He'. apply Hclip. now right. }
  exists out, (pre ++ post)%list. split; [exact Hrun |]. split.
  - intros e He Hfile. apply in_app_or in He. destruct He as [He | He].
    + destruct (Hevents e He) as (_ & _ & Hcond).
      specialize (Hcond Hfile). apply andb_prop in Hcond.
      destruct Hcond as [Hafter Hpath]. split; [exact Hafter |].
      intros Hempty. rewrite Hempty in Hpath. discriminate Hpath.
    + rewrite (Hclip e He) in Hfile. discriminate Hfile.
  - intros Hafter Hpath.
    rewrite Hafter in Hpre.
    assert (Hne : isEmpty (savePath (config w)) = false).
    { unfold isEmpty. now apply String.eqb_neq. }
    rewrite Hne in Hpre. cbn [andb negb] in Hpre.
    destruct Hpre as (okay & ch & attached & msg & -> & _).
    exists okay. rewrite filter_app, Hfilter. reflexivity.
Qed.

(** What the clipboard half of [saveToClipboard] can hold. *)
Lemma saveToClipboard_post_events
  (build : Build) (capture : QPixmap) (w1 : World QPixmap) (jpg unix : bool)
  (out : Outcome unit) (post : list (Event QPixmap)) :
  (if jpg
   then saveToClipboardMime env build capture "jpeg" w1 = (out, emits post w1)
   else if unix && waylandDetected env w1
   then saveToClipboardMime env build capture "png" w1 = (out, emits post w1)
   else out = Done tt /\ post = [EvQClipboardSetPixmap capture]) ->
  (out = Done tt \/ out = Replaced \/ out = Killed) /\
  (USE_WL_COPY build = false ->
   out = Done tt /\ forall e, In e post -> backendOf e <> Some WlCopyHelper) /\
  (USE_WL_COPY build = true -> jpg = true ->
   out = Done tt /\ forall e, In e post -> isLog e = true) /\
  (forall e, In e post -> isFileWrite e = false /\ isDialog e = false).
Proof.
  intros Hpost.
  assert (Hmime : forall imageType,
    saveToClipboardMime env build capture imageType w1 = (out, emits post w1) ->
    (out = Done tt \/ out = Replaced \/ out = Killed) /\
    (USE_WL_COPY build = false ->
     out = Done tt /\ forall e, In e post -> backendOf e <> Some WlCopyHelper) /\
    (USE_WL_COPY build = true -> imageType <> "png" ->
     out = Done tt /\ forall e, In e post -> isLog e = true) /\
    (forall e, In e post -> isFileWrite e = false /\ isDialog e = false)).
  { intros imageType Hrun.
    destruct (saveToClipboardMime_run build capture imageType w1)
      as (out' & t' & Hrun' & Hout & Hnowl & Hother & Hall).
    rewrite Hrun' in Hrun. apply run_emits_inj in Hrun.
    destruct Hrun as [-> ->].
    split; [exact Hout |]. split; [| split; [exact Hother |]].
    - intros Hwl. split; [exact (Hnowl Hwl) |].
      intros e He Hb. destruct (Hall e He) as [H | H].
      + rewrite Hb in H. injection H as H.
        unfold selectedBackend in H. rewrite Hwl in H.
        destruct (USE_WAYLAND_CLIPBOARD build); discriminate H.
      + destruct e; cbn in Hb, H; discriminate.
    - intros e He. exact (backend_or_log_event _ e (Hall e He)). }
  destruct jpg.
  - destruct (Hmime "jpeg" Hpost) as (H1 & H2 & H3 & H4).
    split; [exact H1 |]. split; [exact H2 |]. split; [| exact H4].
    intros Hwl _. apply H3; [exact Hwl | discriminate].
  - destruct (unix && waylandDetected env w1).
    + destruct (Hmime "png" Hpost) as (H1 & H2 & _ & H4).
      split; [exact H1 |]. split; [exact H2 |]. split; [| exact H4].
      intros _ Hjpg. discriminate Hjpg.
    + destruct Hpost as [-> ->].
      split; [auto |]. split; [| split].
      * intros _. split; [reflexivity |].
        intros e [<- | []]. discriminate.
      * intros _ Hjpg. discriminate Hjpg.
      * intros e [<- | []]. split; reflexivity.
Qed.

(** X5: in a build with USE_WL_COPY, when the configuration asks for jpeg
    on the clipboard, [saveToClipboard] puts nothing on the clipboard: it
    returns and no action of any backend occurs (the helper only takes
    png). *)
Theorem saveToClipboard_jpeg_under_wl_copy_copies_nothing :
  forall (build : Build) (capture : QPixmap) (w : World QPixmap),
    USE_WL_COPY build = true ->
    useJpgForClipboard (config w) = true ->
    exists t : list (Event QPixmap),
      saveToClipboard env build capture w = (Done tt, emits t w) /\
      forall e, In e t -> backendOf e = None.
Proof.
  intros build capture w Hwl Hjpg.
  destruct (saveToClipboard_shape build capture w)
    as (pre & post & out & Hrun & Hpre & Hpost).
  pose proof (saveToClipboard_pre_events capture w pre Hpre) as Hevents.
  apply saveToClipboard_post_events in Hpost.
  destruct Hpost as (_ & _ & Hlog & _).
  destruct (Hlog Hwl Hjpg) as [-> Hall].
  exists (pre ++ post)%list. split; [exact Hrun |].
  intros e He. apply in_app_or in He. destruct He as [He | He].
  - exact (proj1 (Hevents e He)).
  - specialize (Hall e He). destruct e; cbn in Hall; try discriminate Hall.
    reflexivity.
Qed.

(** X6: without USE_WL_COPY, [saveToClipboard] always returns and never
    creates a pipe, forks, execs or writes to a descriptor. *)
Theorem saveToClipboard_forks_only_with_wl_copy :
  forall (build : Build) (capture : QPixmap) (w : World QPixmap),
    USE_WL_COPY build = false ->
    exists t : list (Event QPixmap),
      saveToClipboard env build capture w = (Done tt, emits t w) /\
      forall e, In e t -> backendOf e <> Some WlCopyHelper.
Proof.
  intros build capture w Hwl.
  destruct (saveToClipboard_shape build capture w)
    as (pre & post & out & Hrun & Hpre & Hpost).
  pose proof (saveToClipboard_pre_events capture w pre Hpre) as Hevents.
  apply saveToClipboard_post_events in Hpost.
  destruct Hpost as (_ & Hnowl & _ & _).
  destruct (Hnowl Hwl) as [-> Hall].
  exists (pre ++ post)%list. split; [exact Hrun |].
  intros e He. apply in_app_or in He. destruct He as [He | He].
  - rewrite (proj1 (Hevents e He)). discriminate.
  - exact (Hall e He).
Qed.

(** X7: [saveToClipboard] never changes the configuration and never shows
    a dialog or message box, however the call ends. *)
Theorem saveToClipboard_keeps_configuration :
  forall (build : Build) (capture : QPixmap) (w : World QPixmap),
  exists (out : Outcome unit) (t : list (Event QPixmap)),
    saveToClipboard env build capture w = (out, emits t w) /\
    config (snd (saveToClipboard env build capture w)) = config w /\
    forall e, In e t -> isDialog e = false.
Proof.
  intros build capture w.
  destruct (saveToClipboard_shape build capture w)
    as (pre & post & out & Hrun & Hpre & Hpost).
  pose proof (saveToClipboard_pre_events capture w pre Hpre) as Hevents.
  apply saveToClipboard_post_events in Hpost.
  destruct Hpost as (_ & _ & _ & Hall).
  exists out, (pre ++ post)%list. split; [exact Hrun |].
  split; [rewrite Hrun; reflexivity |].
  intros e He. apply in_app_or in He. destruct He as [He | He].
  - exact (proj1 (proj2 (Hevents e He))).
  - exact (proj2 (Hall e He)).
Qed.

(** X8: when jpeg is not configured and the build is neither Linux nor
    Unix, or no Wayland session is detected, [saveToClipboard] hands the
    capture itself to the Qt clipboard, whatever the clipboard switches
    are: nothing is encoded and no other backend is used. *)
Theorem saveToClipboard_raw_pixmap_off_wayland :
  forall (build : Build) (capture : QPixmap) (w : World QPixmap),
    useJpgForClipboard (config w) = false ->
    (Q_OS_LINUX build || Q_OS_UNIX build = false \/
     forall w1, waylandDetected env w1 = false) ->
    exists pre : list (Event QPixmap),
      saveToClipboard env build capture w
      = (Done tt, emits (pre ++ [EvQClipboardSetPixmap capture])%list w) /\
      forall e, In e pre -> backendOf e = None.
Proof.
  intros build capture w Hjpg Hoff.
  destruct (saveToClipboard_shape build capture w)
    as (pre & post & out & Hrun & Hpre & Hpost).
  pose proof (saveToClipboard_pre_events capture w pre Hpre) as Hevents.
  rewrite Hjpg in Hpost.
  assert (Hcond : (Q_OS_LINUX build || Q_OS_UNIX build)
                  && waylandDetected env (emits pre w) = false).
  { destruct Hoff as [H | H]; [rewrite H | rewrite (H (emits pre w))];
      [reflexivity | apply andb_false_r]. }
  rewrite Hcond in Hpost. destruct Hpost as [-> ->].
  exists pre. split; [exact Hrun |].
  intros e He. exact (proj1 (Hevents e He)).
Qed.

(** ** Further properties of [saveToFilesystemGUI] *)

(** The macOS loop in closed form. *)
Lemma hideCaptureWidget_actions :
  forall (widgets : list (nat * string)) (w : World QPixmap),
    hideCaptureWidget widgets w
    = (Done tt, emits (captureWidgetActions widgets) w).
Proof.
  induction widgets as [| [widget className] rest IH]; intros w;
    unfold captureWidgetActions; cbn [hideCaptureWidget find snd].
  - now rewrite emits_nil.
  - destruct (className =? "CaptureWidget")%string.
    + step. reflexivity.
    + apply IH.
Qed.

(** X9: the macOS loop shows and hides the first top-level widget of class
    CaptureWidget and stops there; later widgets of that class are left
    alone, and without such a widget nothing is done. *)
Theorem hideCaptureWidget_first_capture_widget :
  forall (widgets : list (nat * string)) (w : World QPixmap),
    hideCaptureWidget widgets w
    = (Done tt, emits (captureWidgetActions widgets) w).
Proof.
  induction widgets as [| [widget className] rest IH]; intros w;
    unfold captureWidgetActions; cbn [hideCaptureWidget find snd].
  - now rewrite emits_nil.
  - destruct (className =? "CaptureWidget")%string.
    + step. reflexivity.
    + apply IH.
Qed.

Lemma lastIndexOf_from_split (c : ascii) (s : string) :
  lastIndexOf_from c s 0 = -1 \/
  exists dir name, s = dir ++ String c name /\ lastIndexOf_from c name 0 = -1.
Proof.
  induction s as [| a rest IH].
  - now left.
  - destruct IH as [Habsent | (dir & name & -> & Hname)].
    + destruct (Ascii.eqb_spec a c) as [-> | Hne].
      * right. exists "", rest. split; [reflexivity | exact Habsent].
      * left. cbn [lastIndexOf_from].
        rewrite (lastIndexOf_from_absent c rest 0 (0 + 1))
          by (lia || assumption).
        cbn [Z.eqb]. apply Ascii.eqb_neq in Hne. now rewrite Hne.
    + right. exists (String a dir), name. split; [reflexivity | exact Hname].
Qed.

(** X10: [pathNoFile] gives the whole path when it holds no slash, and
    otherwise splits it at its last slash: the path is the result, a
    slash, and a slash-free name. *)
Theorem pathNoFile_splits_at_last_slash :
  forall path : string,
    (lastIndexOf path "/"%char = -1 /\ pathNoFile path = path)
    \/
    (exists name,
       lastIndexOf name "/"%char = -1 /\
       path = pathNoFile path ++ "/" ++ name).
Proof.
  intros path.
  destruct (lastIndexOf_from_split "/"%char path)
    as [Habsent | (dir & name & -> & Hname)].
  - left. split; [exact Habsent |].
    unfold pathNoFile, left, lastIndexOf. rewrite Habsent. reflexivity.
  - right. exists name. split; [exact Hname |].
    change (dir ++ String "/"%char name) with (dir ++ "/" ++ name).
    now rewrite pathNoFile_directory.
Qed.

(** The one dialog [ShowSaveFileDialog] executes and what it returns. *)
Lemma ShowSaveFileDialog_outcome (title directory : string) (w : World QPixmap) :
  exists (dialog : FileDialog) (res : DialogResult),
    ShowSaveFileDialog env title directory w =
      ((if accepted res
        then match selectedFiles res with
             | [] => Undefined
             | x :: _ => Done x
             end
        else Done ""),
       emits [EvFileDialogExec dialog res] w) /\
    dlgTitle dialog = title /\ dlgDirectory dialog = directory.
Proof.
  unfold ShowSaveFileDialog, constFirst. step.
  match goal with
  | |- context [dialogExec env w ?d] =>
      exists d, (dialogExec env w d); set (res := dialogExec env w d)
  end.
  split; [| split; reflexivity].
  destruct (accepted res); [destruct (selectedFiles res) |]; reflexivity.
Qed.

(** Every run of [saveToFilesystemGUI]: widget actions [tw] (macOS only),
    then the dialog [td] unless the path is fixed, then [tail]: nothing
    when no path was chosen, or open, save and either the success line
    (with the optional copy of the path) or the error box. *)
Lemma saveToFilesystemGUI_shape :
  forall (build : Build) (capture : QPixmap) (w : World QPixmap),
  exists (td tail : list (Event QPixmap)) (chosen : Outcome string)
         (out : Outcome bool) (cfg : Config),
    let tw : list (Event QPixmap) :=
      if Q_OS_MACOS build then captureWidgetActions (topLevelWidgets env w)
      else [] in
    let proposed :=
      properScreenshotPath env w (guiDefaultSavePath env w)
        (saveAsFileExtension (config w)) in
    saveToFilesystemGUI env build capture w
    = (out, {| history := (history w ++ tw ++ td ++ tail)%list;
               config := cfg |}) /\
    (if savePathFixed (config w)
     then td = [] /\ chosen = Done proposed
     else exists dialog res,
         td = [EvFileDialogExec dialog res] /\
         dlgTitle dialog = tr env "Save screenshot" /\
         dlgDirectory dialog = proposed /\
         chosen = (if accepted res
                   then match selectedFiles res with
                        | [] => Undefined
                        | x :: _ => Done x
                        end
                   else Done "")) /\
    ((chosen = Undefined /\ out = Undefined /\ tail = [] /\ cfg = config w)
     \/ (chosen = Done "" /\ out = Done false /\ tail = [] /\ cfg = config w)
     \/ (exists p msg icon,
           chosen = Done p /\ p <> "" /\ out = Done false /\
           cfg = config w /\
           tail = [EvFileOpen p; EvPixmapSave capture p false;
                   EvMessageBox (tr env "Save Error") msg icon] /\
           String.prefix (tr env "Error trying to save as " ++ p) msg = true)
     \/ (exists p,
           chosen = Done p /\ p <> "" /\ out = Done true /\
           cfg = with_savePath (pathNoFile p) (config w) /\
           tail = ([EvFileOpen p; EvPixmapSave capture p true;
                    EvLog ChDefault (Some p)
                      [(tr env "Capture saved as " ++ p)%string]]
                   ++ (if copyPathAfterSave (config w)
                       then [EvDaemonCopyToClipboard p
                               (tr env "Path copied to clipboard as " ++ p)%string]
                       else []))%list)).
Proof.
  intros build capture w.
  unfold saveToFilesystemGUI.
  cbn [bind ask ret act when].
  fold (guiDefaultSavePath env w).
  set (proposed := properScreenshotPath env w _ _).
  set (tw := if Q_OS_MACOS build
             then captureWidgetActions (topLevelWidgets env w) else []).
  assert (Hw :
    when (Q_OS_MACOS build)
      (bind (ask (topLevelWidgets env))
         (fun widgets => hideCaptureWidget widgets)) w
    = (Done tt, emits tw w)).
  { subst tw. destruct (Q_OS_MACOS build); cbn [when].
    - cbn [bind ask]. rewrite hideCaptureWidget_actions.
      reflexivity.
    - now rewrite emits_nil. }
  rewrite (bind_run _ _ _ _ _ Hw). clear Hw.
  cbn [bind ask]; rewrite config_emits.
  match goal with
  | |- context [bind _ ?k0 (emits tw w)] => set (k := k0)
  end.
  assert (Htail : forall (p : string) (pre : list (Event QPixmap)),
    exists tail out cfg,
      k p (emits pre w)
      = (out, {| history := (history w ++ pre ++ tail)%list; config := cfg |})
      /\ ((p = "" /\ out = Done false /\ tail = [] /\ cfg = config w)
          \/ (exists msg icon,
                p <> "" /\ out = Done false /\ cfg = config w /\
                tail = [EvFileOpen p; EvPixmapSave capture p false;
                        EvMessageBox (tr env "Save Error") msg icon] /\
                String.prefix (tr env "Error trying to save as " ++ p) msg
                = true)
          \/ (p <> "" /\ out = Done true /\
              cfg = with_savePath (pathNoFile p) (config w) /\
              tail = ([EvFileOpen p; EvPixmapSave capture p true;
                       EvLog ChDefault (Some p)
                         [(tr env "Capture saved as " ++ p)%string]]
                      ++ (if copyPathAfterSave (config w)
                          then [EvDaemonCopyToClipboard p
                                  (tr env "Path copied to clipboard as " ++ p)%string]
                          else []))%list))).
  { intros p pre. subst k. cbn beta.
    destruct (String.eqb_spec p "") as [-> | Hp].
    - exists [], (Done false), (config w). split.
      + unfold ret, emits. now rewrite app_nil_r.
      + left. auto.
    - step.
      match goal with
      | |- context [pixmapSave env ?w0 ?c ?q] =>
          destruct (pixmapSave env w0 c q) eqn:Eok
      end; step.
      + rewrite ?config_emits; cbn [config with_savePath copyPathAfterSave].
        destruct (copyPathAfterSave (config w)); step.
        all: eexists; eexists; eexists; split;
          [ unfold emits; cbn [history config];
            rewrite <- ?app_assoc; reflexivity
          | right; right; repeat split; auto ].
      + eexists; eexists; eexists. split.
        * unfold emits; cbn [history config].
          rewrite <- !app_assoc. reflexivity.
        * right; left. eexists; eexists. repeat split; auto.
          match goal with
          | |- context [if ?b then _ else _] => destruct b
          end; [apply prefix_append | apply prefix_refl]. }
  clearbody k.
  destruct (savePathFixed (config w)); cbn [negb].
  - cbn [bind ret].
    destruct (Htail proposed tw) as (tail & out & cfg & Hrun & Hcases).
    exists [], tail, (Done proposed), out, cfg.
    split; [rewrite Hrun; reflexivity |]. split; [auto |].
    destruct Hcases as [(Hp & -> & -> & ->)
                       | [(msg & icon & Hp & -> & -> & -> & Hmsg)
                         | (Hp & -> & -> & ->)]].
    + right; left. rewrite Hp. auto.
    + right; right; left. exists proposed, msg, icon. auto 10.
    + right; right; right. exists proposed. auto 10.
  - destruct (ShowSaveFileDialog_outcome (tr env "Save screenshot") proposed
                (emits tw w)) as (dialog & res & Hd & Htitle & Hdir).
    rewrite (bind_run _ _ _ _ _ Hd). clear Hd.
    rewrite emits_emits.
    destruct (accepted res) eqn:Hacc;
      [destruct (selectedFiles res) as [| x rest] eqn:Hsel |].
    + exists [EvFileDialogExec dialog res], [], Undefined, Undefined, (config w).
      split; [unfold emits; now rewrite app_nil_r |].
      split; [exists dialog, res; rewrite Hacc, Hsel; auto |].
      left. auto.
    + destruct (Htail x (tw ++ [EvFileDialogExec dialog res])%list)
        as (tail & out & cfg & Hrun & Hcases).
      exists [EvFileDialogExec dialog res], tail, (Done x), out, cfg.
      split; [rewrite Hrun, <- !app_assoc; reflexivity |].
      split; [exists dialog, res; rewrite Hacc, Hsel; auto |].
      destruct Hcases as [(Hp & -> & -> & ->)
                         | [(msg & icon & Hp & -> & -> & -> & Hmsg)
                           | (Hp & -> & -> & ->)]].
      * right; left. rewrite Hp. auto.
      * right; right; left. exists x, msg, icon. auto 10.
      * right; right; right. exists x. auto 10.
    + destruct (Htail "" (tw ++ [EvFileDialogExec dialog res])%list)
        as (tail & out & cfg & Hrun & Hcases).
      exists [EvFileDialogExec dialog res], tail, (Done ""), out, cfg.
      split; [rewrite Hrun, <- !app_assoc; reflexivity |].
      split; [exists dialog, res; rewrite Hacc; auto |].
      destruct Hcases as [(Hp & -> & -> & ->)
                         | [(msg & icon & Hp & _) | (Hp & _)]];
        [right; left; auto | now elim Hp | now elim Hp].
Qed.

(** The widget actions are neither file actions, dialogs, saves nor
    copies of the path. *)
Lemma gui_widget_events (build : Build) (w : World QPixmap) (e : Event QPixmap) :
  In e (if Q_OS_MACOS build
        then captureWidgetActions (topLevelWidgets env w) else []) ->
  exists n, e = EvShowNormal n \/ e = EvHide n.
Proof.
  destruct (Q_OS_MACOS build); [| intros []].
  unfold captureWidgetActions.
  destruct (find _ _) as [[widget className] |]; [| intros []].
  cbn [In]. intros [<- | [<- | []]]; eauto.
Qed.

(** X11: with a fixed save path [saveToFilesystemGUI] asks nothing: no
    dialog is executed and the capture is saved straight to the path
    [properScreenshotPath] makes from the configured save path, or from the
    pictures location when the configured path is empty, missing or not
    writable.  The result is the result of that save. *)
Theorem saveToFilesystemGUI_fixed_path_skips_dialog :
  forall (build : Build) (capture : QPixmap) (w : World QPixmap),
    savePathFixed (config w) = true ->
    properScreenshotPath env w (guiDefaultSavePath env w)
      (saveAsFileExtension (config w)) <> "" ->
    exists (okay : bool) (t : list (Event QPixmap)) (cfg : Config),
      saveToFilesystemGUI env build capture w
      = (Done okay, {| history := (history w ++ t)%list; config := cfg |}) /\
      (forall d r, ~ In (EvFileDialogExec d r) t) /\
      filter isFileWrite t
      = [EvFileOpen
           (properScreenshotPath env w (guiDefaultSavePath env w)
              (saveAsFileExtension (config w)));
         EvPixmapSave capture
           (properScreenshotPath env w (guiDefaultSavePath env w)
              (saveAsFileExtension (config w)))
           okay].
Proof.
  intros build capture w Hfixed Hpath.
  destruct (saveToFilesystemGUI_shape build capture w)
    as (td & tail & chosen & out & cfg & Hrun & Htd & Hcases).
  cbv zeta in Hrun, Htd.
  rewrite Hfixed in Htd. destruct Htd as [-> ->].
  pose proof (gui_widget_events build w) as Hwidget.
  set (tw := if Q_OS_MACOS build
             then captureWidgetActions (topLevelWidgets env w) else []) in *.
  assert (Hnofile : filter isFileWrite tw = []).
  { clear - Hwidget. induction tw as [| e tw IH]; [reflexivity |].
    cbn [filter]. destruct (Hwidget e (or_introl eq_refl)) as [n [-> | ->]];
      cbn [isFileWrite]; apply IH; intros e' He'; apply Hwidget; now right. }
  destruct Hcases as [(Hc & _) | [(Hc & _) | [(p & msg & icon & Hc & Hp & -> & -> & -> & _)
                                            | (p & Hc & Hp & -> & -> & ->)]]];
    try discriminate Hc; injection Hc as Hc; try (now elim Hpath); subst p.
  - exists false. eexists; eexists. split; [exact Hrun |]. split.
    + intros d r Hin. cbn [app] in Hin. split_in Hin; try discriminate Hin.
      destruct (Hwidget _ Hin) as [n [H | H]]; discriminate H.
    + cbn [app]. rewrite filter_app, Hnofile. reflexivity.
  - exists true. eexists; eexists. split; [exact Hrun |]. split.
    + intros d r Hin. cbn [app] in Hin.
      destruct (copyPathAfterSave (config w));
        split_in Hin; try discriminate Hin;
        destruct (Hwidget _ Hin) as [n [H | H]]; discriminate H.
    + cbn [app]. rewrite filter_app, Hnofile.
      destruct (copyPathAfterSave (config w)); reflexivity.
Qed.

(** X12: [saveToFilesystemGUI] reports a failed save with a message box
    and only then.  A box is titled tr("Save Error"), its text starts with
    tr("Error trying to save as ") and the path of a save that failed, the
    call returns false and the configuration is untouched; and every
    failed save comes with such a box. *)
Theorem saveToFilesystemGUI_error_box_on_failed_save :
  forall (build : Build) (capture : QPixmap) (w : World QPixmap),
  exists (out : Outcome bool) (t : list (Event QPixmap)) (cfg : Config),
    saveToFilesystemGUI env build capture w
    = (out, {| history := (history w ++ t)%list; config := cfg |}) /\
    (forall title msg icon,
       In (EvMessageBox title msg icon) t ->
       title = tr env "Save Error" /\ out = Done false /\ cfg = config w /\
       exists p,
         In (EvPixmapSave capture p false) t /\
         String.prefix (tr env "Error trying to save as " ++ p) msg = true) /\
    (forall c p,
       In (EvPixmapSave c p false) t ->
       exists msg icon, In (EvMessageBox (tr env "Save Error") msg icon) t).
Proof.
  intros build capture w.
  destruct (saveToFilesystemGUI_shape build capture w)
    as (td & tail & chosen & out & cfg & Hrun & Htd & Hcases).
  cbv zeta in Hrun, Htd.
  pose proof (gui_widget_events build w) as Hwidget.
  set (tw := if Q_OS_MACOS build
             then captureWidgetActions (topLevelWidgets env w) else []) in *.
  assert (Htd' : td = [] \/ exists d r, td = [EvFileDialogExec d r]).
  { destruct (savePathFixed (config w)).
    - left. exact (proj1 Htd).
    - right. destruct Htd as (d & r & -> & _). eauto. }
  clear Htd.
  exists out, (tw ++ td ++ tail)%list, cfg. split; [exact Hrun |].
  destruct Hcases as [(_ & -> & -> & ->)
                     | [(_ & -> & -> & ->)
                       | [(p & msg & icon & _ & Hp & -> & -> & -> & Hmsg)
                         | (p & _ & Hp & -> & -> & ->)]]];
    destruct Htd' as [-> | (d & r & ->)];
    try destruct (copyPathAfterSave (config w));
    cbn [app].
  all: split;
    [ intros title msg' icon' Hin
    | intros c p' Hin ];
    split_in Hin;
    try (destruct (Hwidget _ Hin) as [n [H | H]]; discriminate H);
    try discriminate Hin.
  all: try (injection Hin as <- <- <-;
            repeat split; auto;
            exists p; split; [| exact Hmsg];
            apply in_or_app; right; cbn [In]; auto 10).
  all: injection Hin as <- <-; exists msg, icon;
       apply in_or_app; right; cbn [In]; auto 10.
Qed.

(** X13: [saveToFilesystemGUI] hands the saved path to the daemon for the
    clipboard exactly when the save succeeded and copyPathAfterSave is
    configured; the notification then reads
    tr("Path copied to clipboard as ") followed by the path. *)
Theorem saveToFilesystemGUI_copies_path_when_configured :
  forall (build : Build) (capture : QPixmap) (w : World QPixmap),
  exists (out : Outcome bool) (t : list (Event QPixmap)) (cfg : Config),
    saveToFilesystemGUI env build capture w
    = (out, {| history := (history w ++ t)%list; config := cfg |}) /\
    (forall text note,
       In (EvDaemonCopyToClipboard text note) t ->
       copyPathAfterSave (config w) = true /\ out = Done true /\
       In (EvPixmapSave capture text true) t /\
       note = tr env "Path copied to clipboard as " ++ text) /\
    (copyPathAfterSave (config w) = true ->
     forall c p,
       In (EvPixmapSave c p true) t ->
       In (EvDaemonCopyToClipboard p
             (tr env "Path copied to clipboard as " ++ p)) t).
Proof.
  intros build capture w.
  destruct (saveToFilesystemGUI_shape build capture w)
    as (td & tail & chosen & out & cfg & Hrun & Htd & Hcases).
  cbv zeta in Hrun, Htd.
  pose proof (gui_widget_events build w) as Hwidget.
  set (tw := if Q_OS_MACOS build
             then captureWidgetActions (topLevelWidgets env w) else []) in *.
  assert (Htd' : td = [] \/ exists d r, td = [EvFileDialogExec d r]).
  { destruct (savePathFixed (config w)).
    - left. exact (proj1 Htd).
    - right. destruct Htd as (d & r & -> & _). eauto. }
  clear Htd.
  exists out, (tw ++ td ++ tail)%list, cfg. split; [exact Hrun |].
  destruct Hcases as [(_ & -> & -> & ->)
                     | [(_ & -> & -> & ->)
                       | [(p & msg & icon & _ & Hp & -> & -> & -> & Hmsg)
                         | (p & _ & Hp & -> & -> & ->)]]];
    destruct Htd' as [-> | (d & r & ->)];
    try destruct (copyPathAfterSave (config w)) eqn:Hcopy;
    cbn [app].
  all: split;
    [ intros text note Hin
    | intros Hc c p' Hin ];
    try discriminate Hc;
    split_in Hin;
    try (destruct (Hwidget _ Hin) as [n [H | H]]; discriminate H);
    try discriminate Hin.
  all: try (injection Hin as <- <-;
            repeat split; auto;
            apply in_or_app; right; cbn [In]; auto 10).
  all: injection Hin as <- <-;
       apply in_or_app; right; cbn [In]; auto 10.
Qed.

(** X14: unless the save path is fixed, [saveToFilesystemGUI] executes
    exactly one dialog, titled tr("Save screenshot") and opened on the
    path proposed from the configured save path (or the pictures location
    when that path is empty, missing or not writable); nothing is opened
    or saved before the dialog. *)
Theorem saveToFilesystemGUI_dialog_proposal :
  forall (build : Build) (capture : QPixmap) (w : World QPixmap),
    savePathFixed (config w) = false ->
    exists (out : Outcome bool) (before after : list (Event QPixmap))
           (cfg : Config) (dialog : FileDialog) (res : DialogResult),
      saveToFilesystemGUI env build capture w
      = (out, {| history :=
                   (history w ++ before ++ EvFileDialogExec dialog res :: after)%list;
                 config := cfg |}) /\
      dlgTitle dialog = tr env "Save screenshot" /\
      dlgDirectory dialog
      = properScreenshotPath env w (guiDefaultSavePath env w)
          (saveAsFileExtension (config w)) /\
      (forall e, In e before -> isFileWrite e = false /\ isDialog e = false) /\
      (forall d r, ~ In (EvFileDialogExec d r) after) /\
      (accepted res = false -> out = Done false /\ after = [] /\ cfg = config w).
Proof.
  intros build capture w Hfixed.
  destruct (saveToFilesystemGUI_shape build capture w)
    as (td & tail & chosen & out & cfg & Hrun & Htd & Hcases).
  cbv zeta in Hrun, Htd.
  rewrite Hfixed in Htd.
  destruct Htd as (dialog & res & -> & Htitle & Hdir & Hchosen).
  pose proof (gui_widget_events build w) as Hwidget.
  set (tw := if Q_OS_MACOS build
             then captureWidgetActions (topLevelWidgets env w) else []) in *.
  exists out, tw, tail, cfg, dialog, res.
  split; [exact Hrun |]. split; [exact Htitle |]. split; [exact Hdir |].
  split.
  { intros e He. destruct (Hwidget e He) as [n [-> | ->]]; split; reflexivity. }
  destruct Hcases as [(Hc & -> & -> & ->)
                     | [(Hc & -> & -> & ->)
                       | [(p & msg & icon & Hc & Hp & -> & -> & -> & Hmsg)
                         | (p & Hc & Hp & -> & -> & ->)]]].
  all: split;
    [ intros d r Hin;
      try destruct (copyPathAfterSave (config w));
      cbn [app] in Hin; split_in Hin; discriminate Hin
    | intros Hacc; rewrite Hacc in Hchosen; rewrite Hchosen in Hc;
      try discriminate Hc; try (injection Hc as Hc; now elim Hp); auto ].
Qed.

(** ** Further properties of [ShowSaveFileDialog] *)

(** X15: the mime-type loop works entry by entry: the list built from a
    concatenation is the concatenation of the lists built from the parts,
    building from an already built list changes nothing, and the result is
    never longer than the input. *)
Theorem buildMimeTypeList_composes :
  forall a b : list string,
    buildMimeTypeList (a ++ b)%list
    = (buildMimeTypeList a ++ buildMimeTypeList b)%list /\
    buildMimeTypeList (buildMimeTypeList a) = buildMimeTypeList a /\
    (List.length (buildMimeTypeList a) <= List.length a)%nat.
Proof.
  intros a b. unfold buildMimeTypeList. rewrite !mimeTypeLoop_filter.
  cbn [app]. split; [apply filter_app |]. split.
  - induction a as [| m a IH]; [reflexivity |].
    cbn [filter]. destruct (keepMimeType m) eqn:Hm; [| exact IH].
    cbn [filter]. rewrite Hm, IH. reflexivity.
  - apply filter_length_le.
Qed.

(** ** [saveToClipboard] end to end *)

(** X16: in a USE_WL_COPY build on Linux or Unix, with jpeg not configured
    and a Wayland session detected, [saveToClipboard] first notifies and
    then, when the png bytes load back, is exactly the helper run on those
    bytes: the bytes piped to wl-copy are the ones the image writer
    produced for format [toUpper("png")]. *)
Theorem saveToClipboard_wayland_pipes_png_to_helper :
  forall (build : Build) (capture : QPixmap) (w : World QPixmap),
    USE_WL_COPY build = true ->
    Q_OS_LINUX build || Q_OS_UNIX build = true ->
    useJpgForClipboard (config w) = false ->
    (forall w1, waylandDetected env w1 = true) ->
    exists pre : list (Event QPixmap),
      (forall e, In e pre -> backendOf e = None) /\
      (saveAfterCopy (config w) = false ->
       pre = [EvLog ChDefault None [tr env "Capture saved to clipboard."]]) /\
      (loadFromData env (emits pre w)
         (imageWrite env (emits pre w) capture (toUpperUtf8 env "png"))
         (toUpperUtf8 env "png") <> None ->
       saveToClipboard env build capture w
       = saveToClipboardWlCopy env
           (imageWrite env (emits pre w) capture (toUpperUtf8 env "png"))
           "png" (emits pre w)).
Proof.
  intros build capture w Hwl Hunix Hjpg Hwayland.
  destruct (saveToClipboard_shape build capture w)
    as (pre & post & out & Hrun & Hpre & Hpost).
  pose proof (saveToClipboard_pre_events capture w pre Hpre) as Hevents.
  rewrite Hjpg, Hunix, (Hwayland (emits pre w)) in Hpost. cbn [andb] in Hpost.
  exists pre. split; [intros e He; exact (proj1 (Hevents e He)) |].
  split.
  { intros Hafter. rewrite Hafter in Hpre. exact Hpre. }
  intros Hload.
  rewrite Hrun, <- emits_emits, <- Hpost.
  unfold saveToClipboardMime. step.
  destruct (loadFromData env (emits pre w) _ _); [| contradiction].
  rewrite Hwl. reflexivity.
Qed.

End Properties.

(** * The properties at concrete inputs *)

Lemma saveToClipboardWlCopy_only_png_witness :
  "jpeg" <> "png" /\
  saveToClipboardWlCopy (scripted parentScript) [x01; x02; x03] "jpeg" freshWorld
  = (Done tt,
     emits [EvLog ChError None ["WL_COPY option only supports png"]] freshWorld).
Proof.
  split; [discriminate |].
  apply saveToClipboardWlCopy_only_png. discriminate.
Defined.

Lemma saveToClipboardWlCopy_png_pipes_to_helper_witness :
  saveToClipboardWlCopy (scripted parentScript) [x01; x02; x03] "png" freshWorld
  = (Done tt,
     emits [EvPipe2 O_CLOEXEC 0 (7, 8); EvFork 4242; EvClose 7;
            EvWrite 8 [x01; x02; x03] 3; EvClose 8; EvWaitpid 4242 0]
       freshWorld)
  /\
  saveToClipboardWlCopy (scripted (with_fork 0 parentScript)) [x01; x02; x03]
    "png" freshWorld
  = (Replaced,
     emits [EvPipe2 O_CLOEXEC 0 (7, 8); EvFork 0; EvClose 8;
            EvDup2 7 STDIN_FILENO 0; EvClose 7;
            EvExeclp "wl-copy" ["wl-copy"; "-t"; "image/png"]]
       freshWorld).
Proof.
  split.
  - apply (proj1 (saveToClipboardWlCopy_png_pipes_to_helper
                    nat (scripted parentScript) [x01; x02; x03] freshWorld
                    0 7 8 4242 eq_refl ltac:(discriminate) eq_refl)).
    reflexivity.
  - apply (proj2 (saveToClipboardWlCopy_png_pipes_to_helper
                    nat (scripted (with_fork 0 parentScript)) [x01; x02; x03]
                    freshWorld 0 7 8 0 eq_refl ltac:(discriminate) eq_refl)
             eq_refl 0 eq_refl ltac:(discriminate) eq_refl).
Defined.

Lemma saveToFilesystem_writes_complete_path_witness :
  exists (okay : bool) (t : list (Event nat)),
    fst (saveToFilesystem (scripted parentScript) 5%nat "/home/user/shots"
           "Saved." freshWorld) = Done okay /\
    snd (saveToFilesystem (scripted parentScript) 5%nat "/home/user/shots"
           "Saved." freshWorld) = emits t freshWorld /\
    In (EvFileOpen "/home/user/shots/shot.png") t /\
    In (EvPixmapSave 5%nat "/home/user/shots/shot.png" okay) t /\
    (forall p, In (EvFileOpen p) t -> p = "/home/user/shots/shot.png") /\
    (forall c p o, In (EvPixmapSave c p o) t ->
                   c = 5%nat /\ p = "/home/user/shots/shot.png" /\ o = okay).
Proof.
  exact (saveToFilesystem_writes_complete_path
           nat (scripted parentScript) 5%nat "/home/user/shots" "Saved."
           freshWorld _ _ (surjective_pairing _)).
Defined.

Lemma saveToClipboardMime_load_failure_witness :
  saveToClipboardMime (scripted (with_load false parentScript))
    bothSwitchesBuild 2%nat "png" freshWorld
  = (Done tt,
     emits [EvLog ChError None ["Error while saving to clipboard"]] freshWorld).
Proof.
  exact (proj1 (saveToClipboardMime_load_failure
                  nat (scripted (with_load false parentScript))
                  bothSwitchesBuild 2%nat "png" freshWorld eq_refl)).
Defined.

Lemma saveToClipboardMime_backend_witness :
  selectedBackend bothSwitchesBuild = WlCopyHelper /\
  saveToClipboardMime (scripted parentScript) bothSwitchesBuild 2%nat "png"
    freshWorld
  = saveToClipboardWlCopy (scripted parentScript)
      [x89; x50; x4e; x47; x2a; x2a] "png" freshWorld /\
  exists (out : Outcome unit) (rc : Z) (fds : Z * Z) (pid : Z)
         (rest : list (Event nat)),
    saveToClipboardMime (scripted parentScript) bothSwitchesBuild 2%nat "png"
      freshWorld
    = (out, emits (EvPipe2 O_CLOEXEC rc fds :: rest) freshWorld) /\
    In (EvFork pid) rest /\
    (pid <> 0 ->
     In (EvWrite (snd fds) [x89; x50; x4e; x47; x2a; x2a] 6) rest) /\
    (pid = 0 ->
     In (EvExeclp "wl-copy" ["wl-copy"; "-t"; "image/png"]) rest).
Proof.
  split; [reflexivity |].
  destruct (proj1 (saveToClipboardMime_backend
                     nat (scripted parentScript) bothSwitchesBuild 2%nat "png"
                     freshWorld 6%nat eq_refl))
    as (Hsame & _ & Hpng).
  split; [exact Hsame | exact (Hpng eq_refl)].
Defined.

Lemma saveToFilesystemGUI_savePath_only_on_success_witness :
  fst (saveToFilesystemGUI (scripted parentScript) wlCopyBuild 5%nat freshWorld)
  = Done true /\
  config (snd (saveToFilesystemGUI (scripted parentScript) wlCopyBuild 5%nat
                 freshWorld))
  = with_savePath "/home/user/Pictures" defaultConfig.
Proof.
  apply (proj1 (saveToFilesystemGUI_savePath_only_on_success
                  nat (scripted parentScript) wlCopyBuild 5%nat freshWorld
                  _ _ _ (surjective_pairing _) eq_refl)
           5%nat "/home/user/Pictures/a.png").
  vm_compute. right; right; left; reflexivity.
Defined.

Lemma saveToClipboardWlCopy_failures_only_log_witness :
  exists (rc : Z) (fds : Z * Z) (pid : Z) (m1 m2 : string),
    sys_pipe2 (scripted (with_pipe2 (-1, (0, 0)) parentScript)) freshWorld
      (0, 0) O_CLOEXEC = (rc, fds) /\
    ((forall w1 fd buf count,
        sys_write (scripted (with_pipe2 (-1, (0, 0)) parentScript))
          w1 fd buf count <> None) ->
     fst (saveToClipboardWlCopy
            (scripted (with_pipe2 (-1, (0, 0)) parentScript))
            [x01; x02] "png" freshWorld) <> Killed) /\
    let start : list (Event nat) :=
      ([EvPipe2 O_CLOEXEC rc fds] ++ logLineIf (rc =? -1) "pipe2" m1
       ++ [EvFork pid] ++ logLineIf (pid =? -1) "fork" m2)%list in
    (pid <> 0 /\
     (saveToClipboardWlCopy (scripted (with_pipe2 (-1, (0, 0)) parentScript))
        [x01; x02] "png" freshWorld =
      (Done tt, emits (start ++ parentSteps [x01; x02] fds pid)%list freshWorld)
      \/
      saveToClipboardWlCopy (scripted (with_pipe2 (-1, (0, 0)) parentScript))
        [x01; x02] "png" freshWorld =
      (Killed, emits (start ++ writeSteps [x01; x02] fds)%list freshWorld)))
    \/
    (pid = 0 /\
     exists (rcd : Z) (m3 : string),
       saveToClipboardWlCopy (scripted (with_pipe2 (-1, (0, 0)) parentScript))
         [x01; x02] "png" freshWorld =
       (Replaced, emits (start ++ childSteps fds rcd m3)%list freshWorld)
       \/
       saveToClipboardWlCopy (scripted (with_pipe2 (-1, (0, 0)) parentScript))
         [x01; x02] "png" freshWorld =
       (Done tt,
        emits (start ++ childSteps fds rcd m3
                     ++ parentSteps [x01; x02] fds pid)%list freshWorld)
       \/
       saveToClipboardWlCopy (scripted (with_pipe2 (-1, (0, 0)) parentScript))
         [x01; x02] "png" freshWorld =
       (Killed,
        emits (start ++ childSteps fds rcd m3
                     ++ writeSteps [x01; x02] fds)%list freshWorld)).
Proof.
  exact (saveToClipboardWlCopy_failures_only_log
           nat (scripted (with_pipe2 (-1, (0, 0)) parentScript))
           [x01; x02] freshWorld).
Defined.

Lemma saveToFilesystem_log_and_return_witness :
  saveToFilesystem (scripted (with_save false 5 parentScript)) 5%nat
    "/home/user/shots" "Saved." freshWorld
  = (Done false,
     emits [EvFileOpen "/home/user/shots/shot.png";
            EvPixmapSave 5%nat "/home/user/shots/shot.png" false;
            EvLog ChError (Some "")
              ["Saved. Error trying to save as /home/user/shots/shot.png: Permission denied"]]
       freshWorld).
Proof.
  destruct (saveToFilesystem_log_and_return
              nat (scripted (with_save false 5 parentScript)) 5%nat
              "/home/user/shots" "Saved." freshWorld)
    as (line & Hrun & _ & Hfail).
  rewrite Hrun, (Hfail eq_refl). reflexivity.
Defined.

Lemma ShowSaveFileDialog_mime_filters_witness :
  exists (dialog : FileDialog) (res : DialogResult),
    snd (ShowSaveFileDialog (scripted parentScript) "Save screenshot"
           "/home/user/shots" freshWorld)
    = emits [EvFileDialogExec dialog res] freshWorld /\
    dlgMimeTypeFilters dialog
    = ["image/bmp"; "image/heif"; "image/jpeg"; "image/png"].
Proof.
  destruct (ShowSaveFileDialog_mime_filters
              nat (scripted parentScript) "Save screenshot"
              "/home/user/shots" freshWorld)
    as (dialog & res & Hrun & Hfilters & _).
  exists dialog, res. split; [exact Hrun |].
  rewrite Hfilters. reflexivity.
Defined.

Lemma ShowSaveFileDialog_result_witness :
  fst (ShowSaveFileDialog (scripted parentScript) "Save screenshot"
         "/home/user/shots" freshWorld)
  = Done "/home/user/Pictures/a.png".
Proof.
  destruct (ShowSaveFileDialog_result
              nat (scripted parentScript) "Save screenshot"
              "/home/user/shots" freshWorld)
    as (dialog & res & Hres & _ & _ & _ & _ & _ & _ & _ & Hacc).
  apply (Hacc "/home/user/Pictures/a.png" []); rewrite <- Hres; reflexivity.
Defined.

Lemma saveToClipboardWlCopy_child_runs_on_when_exec_fails_witness :
  saveToClipboardWlCopy
    (scripted (with_execlp (Some (-1)) (with_fork 0 parentScript)))
    [x01; x02] "png" freshWorld
  = (Done tt,
     emits [EvPipe2 O_CLOEXEC 0 (7, 8); EvFork 0; EvClose 8;
            EvDup2 7 STDIN_FILENO 0; EvClose 7;
            EvExeclp "wl-copy" ["wl-copy"; "-t"; "image/png"];
            EvClose 7; EvWrite 8 [x01; x02] 2; EvClose 8;
            EvWaitpid 0 0] freshWorld).
Proof.
  exact (saveToClipboardWlCopy_child_runs_on_when_exec_fails
           nat (scripted (with_execlp (Some (-1)) (with_fork 0 parentScript)))
           [x01; x02] freshWorld 0 7 8 0 (-1)
           eq_refl ltac:(discriminate) eq_refl eq_refl ltac:(discriminate)
           eq_refl).
Defined.

Lemma saveToClipboard_jpeg_under_wl_copy_copies_nothing_witness :
  exists t : list (Event nat),
    saveToClipboard (scripted parentScript) bothSwitchesBuild 2%nat jpegWorld
    = (Done tt, emits t jpegWorld) /\
    forall e, In e t -> backendOf e = None.
Proof.
  exact (saveToClipboard_jpeg_under_wl_copy_copies_nothing
           nat (scripted parentScript) bothSwitchesBuild 2%nat jpegWorld
           eq_refl eq_refl).
Defined.

Lemma saveToClipboard_forks_only_with_wl_copy_witness :
  exists t : list (Event nat),
    saveToClipboard (scripted parentScript) windowsBuild 2%nat jpegWorld
    = (Done tt, emits t jpegWorld) /\
    forall e, In e t -> backendOf e <> Some WlCopyHelper.
Proof.
  exact (saveToClipboard_forks_only_with_wl_copy
           nat (scripted parentScript) windowsBuild 2%nat jpegWorld eq_refl).
Defined.

Lemma saveToClipboard_raw_pixmap_off_wayland_witness :
  exists pre : list (Event nat),
    saveToClipboard (scripted parentScript) windowsBuild 2%nat freshWorld
    = (Done tt, emits (pre ++ [EvQClipboardSetPixmap 2%nat])%list freshWorld) /\
    forall e, In e pre -> backendOf e = None.
Proof.
  exact (saveToClipboard_raw_pixmap_off_wayland
           nat (scripted parentScript) windowsBuild 2%nat freshWorld
           eq_refl (or_introl eq_refl)).
Defined.

Lemma saveToFilesystemGUI_fixed_path_skips_dialog_witness :
  exists (okay : bool) (t : list (Event nat)) (cfg : Config),
    saveToFilesystemGUI (scripted parentScript) wlCopyBuild 5%nat fixedWorld
    = (Done okay, {| history := t; config := cfg |}) /\
    (forall d r, ~ In (EvFileDialogExec d r) t) /\
    filter isFileWrite t
    = [EvFileOpen "/home/user/Pictures/shot.jpg";
       EvPixmapSave 5%nat "/home/user/Pictures/shot.jpg" okay].
Proof.
  exact (saveToFilesystemGUI_fixed_path_skips_dialog
           nat (scripted parentScript) wlCopyBuild 5%nat fixedWorld
           eq_refl ltac:(vm_compute; discriminate)).
Defined.

Lemma saveToFilesystemGUI_dialog_proposal_witness :
  exists (out : Outcome bool) (before after : list (Event nat))
         (cfg : Config) (dialog : FileDialog) (res : DialogResult),
    saveToFilesystemGUI (scripted parentScript) wlCopyBuild 5%nat freshWorld
    = (out, {| history := (before ++ EvFileDialogExec dialog res :: after)%list;
               config := cfg |}) /\
    dlgTitle dialog = "Save screenshot" /\
    dlgDirectory dialog = "/home/user/shots/shot.png" /\
    (forall e, In e before -> isFileWrite e = false /\ isDialog e = false) /\
    (forall d r, ~ In (EvFileDialogExec d r) after) /\
    (accepted res = false ->
     out = Done false /\ after = [] /\ cfg = defaultConfig).
Proof.
  exact (saveToFilesystemGUI_dialog_proposal
           nat (scripted parentScript) wlCopyBuild 5%nat freshWorld eq_refl).
Defined.

Lemma saveToClipboard_wayland_pipes_png_to_helper_witness :
  saveToClipboard (scripted parentScript) wlCopyBuild 2%nat freshWorld
  = (Done tt,
     emits [EvLog ChDefault None ["Capture saved to clipboard."];
            EvPipe2 O_CLOEXEC 0 (7, 8); EvFork 4242; EvClose 7;
            EvWrite 8 [x89; x50; x4e; x47; x2a; x2a] 6; EvClose 8;
            EvWaitpid 4242 0] freshWorld).
Proof.
  destruct (saveToClipboard_wayland_pipes_png_to_helper
              nat (scripted parentScript) wlCopyBuild 2%nat freshWorld
              eq_refl eq_refl eq_refl (fun _ => eq_refl))
    as (pre & _ & Hpre & Hrun).
  rewrite (Hpre eq_refl) in Hrun.
  rewrite Hrun; [reflexivity | discriminate].
Defined.

Lemma saveToClipboardWlCopy_one_write_when_it_returns_witness :
  exists (out : Outcome unit) (t : list (Event nat)),
    saveToClipboardWlCopy (scripted parentScript)
      [x01; x02] "png" freshWorld = (out, emits t freshWorld) /\
    (out = Done tt ->
     exists fd, filter isWrite t = [EvWrite fd [x01; x02] 2]) /\
    (out = Replaced -> filter isWrite t = []) /\
    (out = Killed ->
     exists fd before,
       t = (before ++ [EvWrite fd [x01; x02] 2])%list
       /\ filter isWrite before = []).
Proof.
  exact (saveToClipboardWlCopy_one_write_when_it_returns
           nat (scripted parentScript) [x01; x02] freshWorld).
Defined.

Lemma saveToClipboard_saves_file_only_when_configured_witness :
  exists okay : bool,
    filter isFileWrite
      (history (snd (saveToClipboard (scripted parentScript) windowsBuild
                       2%nat jpegWorld)))
    = [EvFileOpen "/home/user/shots/shot.png";
       EvPixmapSave 2%nat "/home/user/shots/shot.png" okay].
Proof.
  destruct (saveToClipboard_saves_file_only_when_configured
              nat (scripted parentScript) windowsBuild 2%nat jpegWorld)
    as (out & t & Hrun & _ & Hfile).
  rewrite Hrun. exact (Hfile eq_refl ltac:(discriminate)).
Defined.

(** With [fork] failing, the parent has just closed the only read end of
    the pipe; the write then raises SIGPIPE and the process ends there:
    the close and the [waitpid] are not reached. *)
Lemma saveToClipboardWlCopy_fork_failure_ends_in_write :
  saveToClipboardWlCopy (scripted (with_sigpipe (with_fork (-1) parentScript)))
    [x01; x02] "png" freshWorld
  = (Killed,
     emits [EvPipe2 O_CLOEXEC 0 (7, 8); EvFork (-1);
            EvLog ChError None ["wl_copy: fork: "; "Too many open files"];
            EvClose 7; EvWrite 8 [x01; x02] 2] freshWorld)
  /\
  ~ (exists pid options,
       In (EvWaitpid pid options)
          (history
             (snd (saveToClipboardWlCopy
                     (scripted (with_sigpipe (with_fork (-1) parentScript)))
                     [x01; x02] "png" freshWorld)))).
Proof.
  split; [reflexivity |].
  intros (pid & options & Hin). vm_compute in Hin.
  repeat (destruct Hin as [Hin | Hin]; [discriminate Hin |]).
  exact Hin.
Qed.

(** In a USE_WL_COPY build with image type "jpeg" the encoded bytes load
    back, and yet nothing is handed to any clipboard backend: the whole
    run is the error line of the wl-copy path. *)
Lemma saveToClipboardMime_wl_copy_jpeg_pushes_nothing :
  loadFromData (scripted parentScript) freshWorld
    (imageWrite (scripted parentScript) freshWorld 2%nat
       (toUpperUtf8 (scripted parentScript) "jpeg"))
    (toUpperUtf8 (scripted parentScript) "jpeg") <> None
  /\
  saveToClipboardMime (scripted parentScript) wlCopyBuild 2%nat "jpeg"
    freshWorld
  = (Done tt,
     emits [EvLog ChError None ["WL_COPY option only supports png"]]
       freshWorld)
  /\
  ~ (exists e,
       In e (history
               (snd (saveToClipboardMime (scripted parentScript) wlCopyBuild
                       2%nat "jpeg" freshWorld)))
       /\ backendOf e <> None).
Proof.
  split; [discriminate |]. split; [reflexivity |].
  intros (e & Hin & Hb). vm_compute in Hin.
  destruct Hin as [<- | []]. apply Hb. reflexivity.
Qed.

(** C9: a file chosen directly under the root.  The save succeeds and the
    call returns true, but the save path stored is the empty string, not
    the directory "/": [left(lastIndexOf("/"))] is [left(0)].  The next
    call then finds the save path empty and falls back to the pictures
    location. *)
Theorem saveToFilesystemGUI_root_level_file_stores_empty_path :
  fst (saveToFilesystemGUI (scripted rootFileScript) wlCopyBuild 5%nat
         freshWorld) = Done true
  /\ In (EvPixmapSave 5%nat "/shot.png" true)
        (history (snd (saveToFilesystemGUI (scripted rootFileScript)
                         wlCopyBuild 5%nat freshWorld)))
  /\ savePath (config (snd (saveToFilesystemGUI (scripted rootFileScript)
                              wlCopyBuild 5%nat freshWorld))) = ""
  /\ guiDefaultSavePath (scripted rootFileScript)
        (snd (saveToFilesystemGUI (scripted rootFileScript) wlCopyBuild
                5%nat freshWorld))
     = "/home/user/Pictures".
Proof.
  split; [reflexivity |]. split; [| split; reflexivity].
  vm_compute. right; right; left; reflexivity.
Qed.

(** * Concrete runs *)

Example pathNoFile_nested :
  pathNoFile "/home/user/Pictures/a.png" = "/home/user/Pictures".
Proof. reflexivity. Qed.

Example pathNoFile_top_level : pathNoFile "/shot.png" = "".
Proof. reflexivity. Qed.

(** [lastIndexOf] is -1 and [left(-1)] is the whole string. *)
Example pathNoFile_without_slash : pathNoFile "shot.png" = "shot.png".
Proof. reflexivity. Qed.

Example buildMimeTypeList_sample :
  buildMimeTypeList (sc_supported parentScript)
  = ["image/bmp"; "image/heif"; "image/jpeg"; "image/png"].
Proof. reflexivity. Qed.

(** A failed [pipe2] leaves the descriptors at 0: after the log line the
    parent still forks, writes to descriptor 0 and waits. *)
Example wlCopy_pipe2_fails :
  saveToClipboardWlCopy (scripted (with_pipe2 (-1, (0, 0)) parentScript))
    [x01; x02] "png" freshWorld
  = (Done tt,
     emits [EvPipe2 O_CLOEXEC (-1) (0, 0);
            EvLog ChError None ["wl_copy: pipe2: "; "Too many open files"];
            EvFork 4242; EvClose 0; EvWrite 0 [x01; x02] 2; EvClose 0;
            EvWaitpid 4242 0] freshWorld).
Proof. reflexivity. Qed.

(** A failed [fork] is logged and the write is still issued; where that
    write returns (SIGPIPE ignored), so are the close and the wait. *)
Example wlCopy_fork_fails :
  saveToClipboardWlCopy (scripted (with_fork (-1) parentScript))
    [x01; x02] "png" freshWorld
  = (Done tt,
     emits [EvPipe2 O_CLOEXEC 0 (7, 8); EvFork (-1);
            EvLog ChError None ["wl_copy: fork: "; "Too many open files"];
            EvClose 7; EvWrite 8 [x01; x02] 2; EvClose 8;
            EvWaitpid (-1) 0] freshWorld).
Proof. reflexivity. Qed.

(** When [execlp] comes back, the child runs on into the parent's steps. *)
Example wlCopy_exec_fails :
  saveToClipboardWlCopy
    (scripted (with_execlp (Some (-1)) (with_fork 0 parentScript)))
    [x01; x02] "png" freshWorld
  = (Done tt,
     emits [EvPipe2 O_CLOEXEC 0 (7, 8); EvFork 0; EvClose 8;
            EvDup2 7 STDIN_FILENO 0; EvClose 7;
            EvExeclp "wl-copy" ["wl-copy"; "-t"; "image/png"];
            EvClose 7; EvWrite 8 [x01; x02] 2; EvClose 8;
            EvWaitpid 0 0] freshWorld).
Proof. reflexivity. Qed.

Example saveToFilesystem_failure :
  saveToFilesystem (scripted (with_save false 5 parentScript)) 5%nat
    "/home/user/shots" "" freshWorld
  = (Done false,
     emits [EvFileOpen "/home/user/shots/shot.png";
            EvPixmapSave 5%nat "/home/user/shots/shot.png" false;
            EvLog ChError (Some "")
              ["Error trying to save as /home/user/shots/shot.png: Permission denied"]]
       freshWorld).
Proof. reflexivity. Qed.

Example ShowSaveFileDialog_cancelled :
  fst (ShowSaveFileDialog
         (scripted (with_dialog {| accepted := false; selectedFiles := [] |}
                      parentScript))
         "Save screenshot" "/home/user/shots" freshWorld)
  = Done "".
Proof. reflexivity. Qed.

Example ShowSaveFileDialog_accepted :
  fst (ShowSaveFileDialog (scripted parentScript)
         "Save screenshot" "/home/user/shots" freshWorld)
  = Done "/home/user/Pictures/a.png".
Proof. reflexivity. Qed.

Example saveToFilesystemGUI_cancelled :
  saveToFilesystemGUI
    (scripted (with_dialog {| accepted := false; selectedFiles := [] |}
                 parentScript))
    wlCopyBuild 5%nat freshWorld
  = (Done false,
     emits [EvFileDialogExec
              {| dlgTitle := "Save screenshot";
                 dlgDirectory := "/home/user/shots/shot.png";
                 dlgAcceptMode := AcceptSave;
                 dontUseNativeDialog := false;
                 dlgMimeTypeFilters :=
                   ["image/bmp"; "image/heif"; "image/jpeg"; "image/png"];
                 dlgSelectedMimeTypeFilter := Some "image/png";
                 dlgDefaultSuffix := "png" |}
              {| accepted := false; selectedFiles := [] |}] freshWorld).
Proof. reflexivity. Qed.

Example saveToFilesystemGUI_save_fails :
  fst (saveToFilesystemGUI (scripted (with_save false 5 parentScript))
         wlCopyBuild 5%nat freshWorld) = Done false
  /\ config (snd (saveToFilesystemGUI
                    (scripted (with_save false 5 parentScript))
                    wlCopyBuild 5%nat freshWorld)) = defaultConfig.
Proof. split; reflexivity. Qed.

Example saveToClipboardMime_qt_clipboard :
  saveToClipboardMime (scripted parentScript)
    {| USE_WL_COPY := false; USE_WAYLAND_CLIPBOARD := false;
       Q_OS_MACOS := false; Q_OS_LINUX := true; Q_OS_UNIX := true |}
    1%nat "jpeg" freshWorld
  = (Done tt,
     emits [EvQClipboardSetMimeData
              [MimeData "image/jpeg" [x89; x50; x4e; x47; x2a]]] freshWorld).
Proof. reflexivity. Qed.

Example saveToClipboardMime_ksystemclipboard :
  saveToClipboardMime (scripted parentScript)
    {| USE_WL_COPY := false; USE_WAYLAND_CLIPBOARD := true;
       Q_OS_MACOS := false; Q_OS_LINUX := true; Q_OS_UNIX := true |}
    1%nat "png" freshWorld
  = (Done tt,
     emits [EvLog ChInfo None ["wl_wayland_copy"];
            EvKSystemClipboardSetMimeData
              [MimeImageData 5%nat; MimeData "x-kde-force-image-copy" []]]
       freshWorld).
Proof. reflexivity. Qed.
